(** * MSRC CVRF client: the aggregators of [cvrf_client.py]

    A shallow embedding of [MSRCStats] and of [main].  The bulletin is the
    value [resp.json()] returns, so the data model is the JSON value itself;
    every Python operation the aggregators apply to it ([dict.get], [for],
    [==], [in], [str.lower], [float], [next]) is a function on JSON values
    that either returns or raises.  *)

From Stdlib Require Import ZArith String Ascii List Floats Lia Bool.
From stdpp Require Import base option list sets gmap strings pretty.

Set Warnings "-register-all".

Open Scope Z_scope.
Open Scope string_scope.
Open Scope list_scope.

(** ** Exceptions and results *)

Inductive exn : Set :=
| AttributeError   (* a method the value does not have *)
| TypeError        (* not iterable, not a container, unhashable, not a number *)
| KeyError         (* [d[k]] on a key the dict lacks *)
| ValueError       (* [float] on a string that is no number *)
| OverflowError    (* [float] on an int beyond the largest double *)
| SystemExit       (* [sys.exit] *)
| IllegalCharacterError.  (* openpyxl: a control character in a text cell *)

Inductive result (A : Type) : Type :=
| Ok (a : A)
| Raise (e : exn).
Arguments Ok {A} a.
Arguments Raise {A} e.

Definition bind {A B} (m : result A) (k : A → result B) : result B :=
  match m with
  | Ok a => k a
  | Raise e => Raise e
  end.

Notation "'let*' x ':=' m 'in' k" := (bind m (λ x, k))
  (at level 10, x name, m at level 100, k at level 200).

Definition is_ok {A} (m : result A) : bool :=
  match m with Ok _ => true | Raise _ => false end.

(** A [for] loop whose body updates one piece of state and may raise. *)
Fixpoint foldM {S A} (body : S → A → result S) (s : S) (l : list A) : result S :=
  match l with
  | [] => Ok s
  | a :: l' => let* s' := body s a in foldM body s' l'
  end.

(** ** JSON values, as [resp.json()] builds them

    A [str] is held as the bytes of its UTF-8 encoding: equality and
    substring search on the encodings agree with Python's on the code
    points.  A [dict] is its entries in insertion order, one per key. *)

Inductive json : Type :=
| JNull
| JBool (b : bool)
| JInt (z : Z)
| JFloat (f : float)
| JStr (s : string)
| JList (l : list json)
| JDict (kvs : list (string * json)).

Fixpoint dict_lookup {V} (k : string) (kvs : list (string * V)) : option V :=
  match kvs with
  | [] => None
  | (k', x) :: rest => if String.eqb k' k then Some x else dict_lookup k rest
  end.

(** [x.get(k, d)]: only a dict has the method. *)
Definition py_get (x : json) (k : string) (d : json) : result json :=
  match x with
  | JDict kvs => Ok (default d (dict_lookup k kvs))
  | _ => Raise AttributeError
  end.

(** [for y in x]: a list gives its items, a dict its keys, a str its
    characters (here one str per byte; every loop of the module raises on
    the first of them, whichever it is); nothing else is iterable. *)
Definition py_iter (x : json) : result (list json) :=
  match x with
  | JList l => Ok l
  | JDict kvs => Ok (map (λ kv, JStr kv.1) kvs)
  | JStr s => Ok (map (λ c, JStr (String c EmptyString)) (list_ascii_of_string s))
  | _ => Raise TypeError
  end.

(** [f == n] for a float [f] and an int [n]: Python compares the exact
    values. *)
Definition float_eq_Z (f : float) (n : Z) : bool :=
  match Prim2SF f with
  | S754_zero _ => Z.eqb n 0
  | S754_finite sg m e =>
      let m' := if sg then Z.neg m else Z.pos m in
      if Z.leb 0 e then Z.eqb (m' * 2 ^ e) n
      else Z.eqb (m' mod 2 ^ (- e)) 0 && Z.eqb (m' / 2 ^ (- e)) n
  | _ => false
  end.

(** [x == n] for an int constant [n]: [True == 1] and [0.0 == 0] hold. *)
Definition py_eq_int (x : json) (n : Z) : bool :=
  match x with
  | JInt z => Z.eqb z n
  | JBool b => Z.eqb (Z.b2z b) n
  | JFloat f => float_eq_Z f n
  | _ => false
  end.

(** [x == s] for a str constant [s]. *)
Definition py_eq_str (x : json) (s : string) : bool :=
  match x with
  | JStr s' => String.eqb s' s
  | _ => false
  end.

(** [hay.startswith(needle)] *)
Fixpoint str_prefix (needle hay : string) : bool :=
  match needle, hay with
  | EmptyString, _ => true
  | String c n', String c' h' => Ascii.eqb c c' && str_prefix n' h'
  | String _ _, EmptyString => false
  end.

(** [needle in hay] on two strs: substring search. *)
Fixpoint str_contains (needle hay : string) : bool :=
  str_prefix needle hay ||
  match hay with
  | EmptyString => false
  | String _ hay' => str_contains needle hay'
  end.

(** [s in c] for a str constant [s]: substring of a str, item of a list,
    key of a dict; any other [c] is no container. *)
Definition py_in_str (s : string) (c : json) : result bool :=
  match c with
  | JStr hay => Ok (str_contains s hay)
  | JList l => Ok (existsb (λ y, py_eq_str y s) l)
  | JDict kvs => Ok (existsb (λ kv, String.eqb kv.1 s) kvs)
  | _ => Raise TypeError
  end.

(** [x in counts] for a dict [counts] with str keys: [x] is hashed first,
    which a list or a dict refuses; the key found is returned. *)
Definition py_in_counts (x : json) (counts : list (string * Z)) : result (option string) :=
  match x with
  | JStr s => Ok (match dict_lookup s counts with Some _ => Some s | None => None end)
  | JList _ | JDict _ => Raise TypeError
  | _ => Ok None
  end.

(** [counts[label] += 1]. *)
Fixpoint dict_incr (label : string) (counts : list (string * Z)) : result (list (string * Z)) :=
  match counts with
  | [] => Raise KeyError
  | (k, n) :: rest =>
      if String.eqb k label then Ok ((k, n + 1) :: rest)
      else let* rest' := dict_incr label rest in Ok ((k, n) :: rest')
  end.

(** [len(x)]; of a str, the length of its encoding, which is that of the
    text when it is ASCII or empty. *)
Definition py_len (x : json) : result Z :=
  match x with
  | JList l => Ok (Z.of_nat (length l))
  | JDict kvs => Ok (Z.of_nat (length kvs))
  | JStr s => Ok (Z.of_nat (String.length s))
  | _ => Raise TypeError
  end.

(** [float(n)] for an int: the nearest double, ties to even. *)
Definition float_of_Z (z : Z) : result float :=
  let f := SF2Prim (binary_normalize prec emax z 0 false) in
  if PrimFloat.is_infinity f then Raise OverflowError else Ok f.

(** ** Constants of the module *)

Definition THREAT_TYPE_VULN : Z := 0.
Definition THREAT_TYPE_EXPLOIT : Z := 1.

Definition VULN_CLASSIFICATIONS : list string :=
  [ "Elevation of Privilege";
    "Security Feature Bypass";
    "Remote Code Execution";
    "Information Disclosure";
    "Denial of Service";
    "Spoofing";
    "Edge - Chromium" ].

(** ** [MSRCStats.classification_counts]

    Each method reads [self.vulns] only, so that is its argument here. *)

(** [{label: 0 for label in VULN_CLASSIFICATIONS}] *)
Definition initial_counts : list (string * Z) :=
  map (λ label, (label, 0)) VULN_CLASSIFICATIONS.

(** [t.get('Description', {}).get('Value', '')] *)
Definition threat_description (t : json) : result json :=
  let* d := py_get t "Description" (JDict []) in
  py_get d "Value" (JStr "").

(** What one threat entry adds to [seen]: the body of the inner loop. *)
Definition threat_label (counts : list (string * Z)) (t : json) : result (option string) :=
  let* ty := py_get t "Type" JNull in
  if negb (py_eq_int ty THREAT_TYPE_VULN) then Ok None
  else
    let* desc := threat_description t in
    if py_eq_str desc "Edge - Chromium" then
      let* pids := py_get t "ProductID" (JList []) in
      let* hit := py_in_str "11655" pids in
      Ok (if hit then Some "Edge - Chromium" else None)
    else py_in_counts desc counts.

(** [seen.add(label)] when the entry gave one. *)
Definition seen_add (seen : gset string) (o : option string) : gset string :=
  match o with
  | Some label => {[ label ]} ∪ seen
  | None => seen
  end.

Definition threats_of (v : json) : result (list json) :=
  let* ts := py_get v "Threats" (JList []) in py_iter ts.

(** The labels one vulnerability is credited with: [seen] after the inner
    loop. *)
Definition vuln_seen (counts : list (string * Z)) (v : json) : result (gset string) :=
  let* ts := threats_of v in
  foldM (λ seen t, let* o := threat_label counts t in Ok (seen_add seen o)) ∅ ts.

(** The body of the outer loop. *)
Definition count_vuln (counts : list (string * Z)) (v : json) : result (list (string * Z)) :=
  let* seen := vuln_seen counts v in
  foldM (λ c label, dict_incr label c) counts (elements seen).

(** The rows of the returned frame: index [Classification], column
    [Count], in the order of the dict. *)
Definition classification_counts (vulns : json) : result (list (string * Z)) :=
  let* vs := py_iter vulns in
  foldM count_vuln initial_counts vs.

(** ** [MSRCStats.exploited_in_wild] *)

(** [next((s.get('BaseScore', 0) for s in v.get('CVSSScoreSets', [])), 0)]:
    the generator is advanced once, so only the first score set is read. *)
Definition first_base_score (v : json) : result json :=
  let* sets := py_get v "CVSSScoreSets" (JList []) in
  let* it := py_iter sets in
  match it with
  | [] => Ok (JInt 0)
  | s :: _ => py_get s "BaseScore" (JInt 0)
  end.

(** [v.get('Title', {}).get('Value')] *)
Definition vuln_title (v : json) : result json :=
  let* d := py_get v "Title" (JDict []) in
  py_get d "Value" JNull.

(** The condition of line 64; [and] reads the description only of an
    Exploit entry. *)
Definition is_exploited_yes (t : json) : result bool :=
  let* ty := py_get t "Type" JNull in
  if py_eq_int ty THREAT_TYPE_EXPLOIT then
    let* desc := threat_description t in
    py_in_str "Exploited:Yes" desc
  else Ok false.

(** [{'CVE': ..., 'Score': base, 'Title': ...}] *)
Definition wild_row (v base : json) : result json :=
  let* cve := py_get v "CVE" JNull in
  let* title := vuln_title v in
  Ok (JDict [("CVE", cve); ("Score", base); ("Title", title)]).

(** The inner loop of both extractors: the first entry that meets [cond]
    appends the row and leaves the loop. *)
Fixpoint scan_threats (cond : json → result bool) (mk_row : result json)
    (rows : list json) (ts : list json) : result (list json) :=
  match ts with
  | [] => Ok rows
  | t :: ts' =>
      let* hit := cond t in
      if hit then (let* r := mk_row in Ok (rows ++ [r]))
      else scan_threats cond mk_row rows ts'
  end.

(** The body of the outer loop, on the rows gathered so far. *)
Definition wild_body (rows : list json) (v : json) : result (list json) :=
  let* base := first_base_score v in
  let* ts := threats_of v in
  scan_threats is_exploited_yes (wild_row v base) rows ts.

(** The list of row dicts handed to [pd.DataFrame]. *)
Definition exploited_in_wild (vulns : json) : result (list json) :=
  let* vs := py_iter vulns in
  foldM wild_body [] vs.

(** ** What the interpreter supplies

    [float] on a str runs the interpreter's number parser and [str.lower]
    its Unicode case tables; both are taken as given.  On ASCII text
    [str.lower] maps [A]..[Z] to [a]..[z] and nothing else. *)

Definition ascii_lower_char (c : ascii) : ascii :=
  let n := nat_of_ascii c in
  if (Nat.leb 65 n && Nat.leb n 90)%bool then ascii_of_nat (n + 32) else c.

Fixpoint ascii_lower (s : string) : string :=
  match s with
  | EmptyString => EmptyString
  | String c s' => String (ascii_lower_char c) (ascii_lower s')
  end.

Fixpoint is_ascii (s : string) : bool :=
  match s with
  | EmptyString => true
  | String c s' => Nat.ltb (nat_of_ascii c) 128 && is_ascii s'
  end.

Section Interpreter.

Variable float_of_str : string → option float.
Variable lower : string → string.

(** [float(x)] *)
Definition py_float (x : json) : result float :=
  match x with
  | JFloat f => Ok f
  | JInt z => float_of_Z z
  | JBool b => Ok (if b then 1%float else 0%float)
  | JStr s => match float_of_str s with Some f => Ok f | None => Raise ValueError end
  | _ => Raise TypeError
  end.

(** [x.lower()] *)
Definition py_lower (x : json) : result string :=
  match x with
  | JStr s => Ok (lower s)
  | _ => Raise AttributeError
  end.

(** ** [MSRCStats.high_severity] *)

(** [next((float(s.get('BaseScore', 0)) for s in v.get('CVSSScoreSets', [])), 0.0)] *)
Definition float_base_score (v : json) : result float :=
  let* sets := py_get v "CVSSScoreSets" (JList []) in
  let* it := py_iter sets in
  match it with
  | [] => Ok 0%float
  | s :: _ => let* b := py_get s "BaseScore" (JInt 0) in py_float b
  end.

Definition high_row (v : json) (bs : float) : result json :=
  let* cve := py_get v "CVE" JNull in
  let* title := vuln_title v in
  Ok (JDict [("CVE", cve); ("Score", JFloat bs); ("Title", title)]).

Definition default_threshold : float := 8%float.

(** The body of the loop; [bs >= threshold] is [threshold <= bs] on
    doubles. *)
Definition high_body (threshold : float) (rows : list json) (v : json) : result (list json) :=
  let* bs := float_base_score v in
  if PrimFloat.leb threshold bs
  then (let* r := high_row v bs in Ok (rows ++ [r]))
  else Ok rows.

Definition high_severity (threshold : float) (vulns : json) : result (list json) :=
  let* vs := py_iter vulns in
  foldM (high_body threshold) [] vs.

(** ** [MSRCStats.likely_exploited] *)

Definition is_more_likely (t : json) : result bool :=
  let* ty := py_get t "Type" JNull in
  if py_eq_int ty THREAT_TYPE_EXPLOIT then
    let* desc := threat_description t in
    let* low := py_lower desc in
    Ok (str_contains "exploitation more likely" low)
  else Ok false.

Definition likely_row (v : json) : result json :=
  let* cve := py_get v "CVE" JNull in
  let* title := vuln_title v in
  Ok (JDict [("CVE", cve); ("Title", title)]).

(** The body of the outer loop. *)
Definition likely_body (rows : list json) (v : json) : result (list json) :=
  let* ts := threats_of v in
  scan_threats is_more_likely (likely_row v) rows ts.

Definition likely_exploited (vulns : json) : result (list json) :=
  let* vs := py_iter vulns in
  foldM likely_body [] vs.

End Interpreter.

(** ** [MSRCStats.__init__] and [main] *)

(** What [requests.get] hands back: the status and what [resp.json()]
    gives. *)
Record response := { status_code : Z; json_body : result json }.

Record MSRCStats := {
  year_month : string;
  data : json;
  title : json;
  vulns : json
}.

Definition fetch_json (resp : response) : result json :=
  if negb (Z.eqb (status_code resp) 200) then Raise SystemExit
  else json_body resp.

Definition MSRCStats_init (ym : string) (resp : response) : result MSRCStats :=
  let* d := fetch_json resp in
  let* dt := py_get d "DocumentTitle" (JDict []) in
  let* ttl := py_get dt "Value" (JStr "[no title]") in
  let* vs := py_get d "Vulnerability" (JList []) in
  Ok {| year_month := ym; data := d; title := ttl; vulns := vs |}.

(** The frames [main] builds and the sheets it writes. *)
Inductive frame : Type :=
| SummaryFrame (release_title : json) (ym : string) (total : Z)
| CountsFrame (rows : list (string * Z))
| RowsFrame (rows : list json).

Record sheet := { sheet_name : string; with_index : bool; content : frame }.

(** ** The spreadsheet library

    [pd.ExcelWriter], [DataFrame.to_excel] and the saving of the workbook
    are pandas' and openpyxl's, not the module's.  Each call returns or
    raises, on grounds the module does not see: a cell the format refuses,
    a file that cannot be written.  What they raise is an input of [main],
    as the response is: [None] says the call returns. *)
Record excel_library := {
  (* [pd.ExcelWriter(out_file, engine='openpyxl')] *)
  open_raises : string → option exn;
  (* [df.to_excel(writer, sheet_name=..., index=...)], on the sheet asked for *)
  to_excel_raises : sheet → option exn;
  (* leaving the [with] block: the writer is closed and the workbook saved *)
  close_raises : string → list sheet → option exn
}.

Section Report.

Variable float_of_str : string → option float.
Variable lower : string → string.
Variable lib : excel_library.

(** [df.to_excel(writer, sheet_name=name, index=idx)]: the writer's sheets
    afterwards and what the call raised, if it did.  A sheet the library
    refuses is not among the sheets written. *)
Definition to_excel (writer : list sheet) (df : frame) (name : string) (idx : bool)
    : list sheet * option exn :=
  let sh := {| sheet_name := name; with_index := idx; content := df |} in
  match to_excel_raises lib sh with
  | Some e => (writer, Some e)
  | None => (writer ++ [sh], None)
  end.

(** One statement of the [with] block after another: the next one runs on
    the writer the last one left, unless that one raised. *)
Definition and_then (st : list sheet * option exn)
    (next : list sheet → list sheet * option exn) : list sheet * option exn :=
  match st.2 with
  | None => next st.1
  | Some _ => st
  end.

(** [main], with the period [ym], the response of the one request and the
    spreadsheet library as inputs; it returns the file name and the sheets
    in the order written.  Leaving the [with] block closes the writer,
    whether the block raised or not, and what the closing raises replaces
    what the block raised.  The loop that sets the column widths is the
    last statement of the block: each column openpyxl hands out has a cell,
    so [max] has an argument, and no sheet's name or rows change
    ([sheet_widths] below); [print] follows. *)
Definition main (ym : string) (resp : response) : result (string * list sheet) :=
  let* stats := MSRCStats_init ym resp in
  let* total := py_len (vulns stats) in
  let df_summary := SummaryFrame (title stats) (year_month stats) total in
  let* df_class := classification_counts (vulns stats) in
  let* df_wild := exploited_in_wild (vulns stats) in
  let* df_high := high_severity float_of_str 8%float (vulns stats) in
  let* df_likely := likely_exploited lower (vulns stats) in
  let out_file := String.append "MSRC_" (String.append ym ".xlsx") in
  match open_raises lib out_file with
  | Some e => Raise e
  | None =>
      let block :=
        and_then (to_excel [] df_summary "Summary" false) (λ writer,
        and_then (to_excel writer (CountsFrame df_class) "By Classification" true) (λ writer,
        and_then (to_excel writer (RowsFrame df_wild) "Exploited in Wild" false) (λ writer,
        and_then (to_excel writer (RowsFrame df_high) "High Severity (≥8.0)" false) (λ writer,
        to_excel writer (RowsFrame df_likely) "Likely Exploited" false)))) in
      match close_raises lib out_file block.1 with
      | Some e => Raise e
      | None =>
          match block.2 with
          | Some e => Raise e
          | None => Ok (out_file, block.1)
          end
      end
  end.

End Report.

(** ** The bulletin schema

    The shape the spec's data model gives a record, every field optional:
    a field that is present has the type the model names. *)

Definition wf_threat (t : json) : bool :=
  match t with
  | JDict kvs =>
      match dict_lookup "Description" kvs with
      | None => true
      | Some (JDict d) =>
          match dict_lookup "Value" d with
          | None | Some (JStr _) => true
          | _ => false
          end
      | _ => false
      end &&
      match dict_lookup "ProductID" kvs with
      | None | Some (JList _) => true
      | _ => false
      end
  | _ => false
  end.

Definition wf_score_set (s : json) : bool :=
  match s with
  | JDict kvs =>
      match dict_lookup "BaseScore" kvs with
      | None | Some (JFloat _) => true
      | Some (JInt z) => is_ok (float_of_Z z)
      | _ => false
      end
  | _ => false
  end.

Definition wf_vuln (v : json) : bool :=
  match v with
  | JDict kvs =>
      match dict_lookup "Threats" kvs with
      | None => true
      | Some (JList ts) => forallb wf_threat ts
      | _ => false
      end &&
      match dict_lookup "CVSSScoreSets" kvs with
      | None => true
      | Some (JList ss) => forallb wf_score_set ss
      | _ => false
      end &&
      match dict_lookup "Title" kvs with
      | None | Some (JDict _) => true
      | _ => false
      end
  | _ => false
  end.

Definition wf_document (doc : json) : bool :=
  match doc with
  | JDict kvs =>
      match dict_lookup "DocumentTitle" kvs with
      | None | Some (JDict _) => true
      | _ => false
      end &&
      match dict_lookup "Vulnerability" kvs with
      | None => true
      | Some (JList vs) => forallb wf_vuln vs
      | _ => false
      end
  | _ => false
  end.

(** ** A record as the bulletin holds it

    What a record holds under a key, found by lookup among its entries and
    by nothing else: none of the readers of the module ([threats_of],
    [threat_description], [py_get], [==]) is used here.  The properties of
    the counter and of the two extractors are stated in these terms. *)

(** The value held under [k], if [x] is an object that has the key. *)
Definition field_of (k : string) (x : json) : option json :=
  match x with
  | JDict kvs => dict_lookup k kvs
  | _ => None
  end.

(** The threat entries a record lists, none when it lists none. *)
Definition threats_field (v : json) : list json :=
  match field_of "Threats" v with
  | Some (JList ts) => ts
  | _ => []
  end.

(** The entry's Type is the number [n]; JSON [true] and [false] count as 1
    and 0, a double as the number it stands for.  In a bulletin a
    Vulnerability-type entry carries Type 0 and an Exploit-type entry
    Type 1. *)
Definition type_field_is (n : Z) (t : json) : bool :=
  match field_of "Type" t with
  | Some (JInt z) => Z.eqb z n
  | Some (JBool b) => Z.eqb (if b then 1 else 0) n
  | Some (JFloat f) => float_eq_Z f n
  | _ => false
  end.

(** The text under Description, Value; empty when there is none. *)
Definition description_text (t : json) : string :=
  match field_of "Description" t with
  | Some d =>
      match field_of "Value" d with
      | Some (JStr s) => s
      | _ => ""
      end
  | None => ""
  end.

(** The entry lists the product identifier "11655". *)
Definition lists_sentinel (t : json) : bool :=
  match field_of "ProductID" t with
  | Some (JList pids) =>
      existsb (λ y, match y with JStr s => String.eqb s "11655" | _ => false end) pids
  | _ => false
  end.

(** Section 4.3 of the spec: a Vulnerability-type entry whose description
    is the label -- one of the seven, and for Edge - Chromium only with
    the sentinel among the product identifiers. *)
Definition names_label (label : string) (t : json) : bool :=
  type_field_is 0 t &&
  String.eqb (description_text t) label &&
  (if String.eqb label "Edge - Chromium" then lists_sentinel t
   else bool_decide (label ∈ VULN_CLASSIFICATIONS)).

(** The CVE id a record holds, [None] when it holds none. *)
Definition cve_field (v : json) : json :=
  match field_of "CVE" v with
  | Some cve => cve
  | None => JNull
  end.

(** ** The same, as the readers of the module give it

    The entries and fields of a record as [threats_of], [py_get] and
    [threat_description] return them; on a record that follows the schema
    they are what the record holds ([threat_list_field],
    [entry_description_field] and their neighbours below). *)

(** The threat entries of a record, none when the field is absent. *)
Definition threat_list (v : json) : list json :=
  match threats_of v with Ok ts => ts | Raise _ => [] end.

(** The entry's type equals [n]. *)
Definition entry_type_is (n : Z) (t : json) : bool :=
  match py_get t "Type" JNull with Ok ty => py_eq_int ty n | Raise _ => false end.

(** The entry's description text, empty when absent. *)
Definition entry_description (t : json) : string :=
  match threat_description t with Ok (JStr s) => s | _ => "" end.

(** The entry's product identifiers, none when absent. *)
Definition entry_product_ids (t : json) : list json :=
  match py_get t "ProductID" (JList []) with Ok (JList l) => l | _ => [] end.

(** Section 4.3 of the spec, for one entry and one label. *)
Definition entry_credits (label : string) (t : json) : bool :=
  entry_type_is THREAT_TYPE_VULN t &&
  String.eqb (entry_description t) label &&
  (if String.eqb label "Edge - Chromium"
   then existsb (λ y, py_eq_str y "11655") (entry_product_ids t)
   else bool_decide (label ∈ VULN_CLASSIFICATIONS)).

(** Section 4.4: an Exploit entry whose description contains the marker. *)
Definition says_exploited_yes (t : json) : bool :=
  entry_type_is THREAT_TYPE_EXPLOIT t &&
  str_contains "Exploited:Yes" (entry_description t).

(** Section 4.6: an Exploit entry whose lower-cased description contains
    the phrase. *)
Definition says_more_likely (lower : string → string) (t : json) : bool :=
  entry_type_is THREAT_TYPE_EXPLOIT t &&
  str_contains "exploitation more likely" (lower (entry_description t)).

(** The vulnerability is credited with [label]: the label is in [seen]
    when the inner loop ends. *)
Definition credited (label : string) (v : json) : bool :=
  match vuln_seen initial_counts v with
  | Ok seen => bool_decide (label ∈ seen)
  | Raise _ => false
  end.

(** The count the frame holds for [label]. *)
Definition count_of (label : string) (out : list (string * Z)) : option Z :=
  dict_lookup label out.

(** A dict over the keys [ks] holding [f k] under [k]. *)
Definition tab (ks : list string) (f : string → Z) : list (string * Z) :=
  map (λ k, (k, f k)) ks.

(** The score sets of a record, none when the field is absent. *)
Definition score_sets (v : json) : list json :=
  match (let* sets := py_get v "CVSSScoreSets" (JList []) in py_iter sets) with
  | Ok l => l
  | Raise _ => []
  end.

(** The base score of the first score set, 0 when that set has none or
    when there is no set. *)
Definition head_base_score (sets : list json) : json :=
  match sets with
  | JDict kvs :: _ => default (JInt 0) (dict_lookup "BaseScore" kvs)
  | _ => JInt 0
  end.

(** The value a row dict holds under a column. *)
Definition row_field (k : string) (r : json) : option json :=
  match r with
  | JDict kvs => dict_lookup k kvs
  | _ => None
  end.

(** A loop body that only appends to [rows]. *)
Definition appends {A B} (body : list B → A → result (list B)) : Prop :=
  ∀ rows a, body rows a = let* new := body [] a in Ok (rows ++ new).

(** ** The Score column in the spec's words *)

(** The spec's words for the score of a record: "the first CVSS base
    score found in the score-set sequence, or 0 if none" (Section 4.4),
    "the first CVSS base score from the score-set sequence (0.0 if none)"
    (Section 4.5) -- the sequence is searched for the first set that
    carries a base score. *)
Fixpoint first_base_score_found (sets : list json) : json :=
  match sets with
  | [] => JInt 0
  | JDict kvs :: rest =>
      match dict_lookup "BaseScore" kvs with
      | Some b => b
      | None => first_base_score_found rest
      end
  | _ :: rest => first_base_score_found rest
  end.

(** ** Sample bulletins

    The records of the spec's testable properties, and a few more. *)

(** An Exploit-type or Vulnerability-type entry with a description. *)
Definition entry (ty : Z) (desc : string) : json :=
  JDict [("Type", JInt ty); ("Description", JDict [("Value", JStr desc)])].

(** A record with a score and entries. *)
Definition vuln (cve : string) (sets ts : list json) : json :=
  JDict [("CVE", JStr cve); ("Title", JDict [("Value", JStr "A flaw")]);
         ("CVSSScoreSets", JList sets); ("Threats", JList ts)].

(** The vulnerability of the spec's example: two entries, both Spoofing. *)
Definition two_spoofing : json :=
  JDict [("CVE", JStr "CVE-2024-0001");
         ("Threats", JList [
            JDict [("Type", JInt 0); ("Description", JDict [("Value", JStr "Spoofing")])];
            JDict [("Type", JInt 0); ("Description", JDict [("Value", JStr "Spoofing")])]])].

(** The two entries of the spec's example. *)
Definition edge_entry (pids : list string) : json :=
  JDict [("Type", JInt 0);
         ("Description", JDict [("Value", JStr "Edge - Chromium")]);
         ("ProductID", JList (map JStr pids))].

Definition edge_vuln (pids : list string) : json :=
  JDict [("CVE", JStr "CVE-2024-0002"); ("Threats", JList [edge_entry pids])].

Definition unknown_label_vuln : json :=
  JDict [("Threats", JList [
     JDict [("Type", JInt 0); ("Description", JDict [("Value", JStr "Tampering")])]])].

(** The spec's example: two Exploit entries, the second says yes. *)
Definition second_says_yes : json :=
  vuln "CVE-2024-0003" [JDict [("BaseScore", JFloat 7.5)]]
       [entry 1 "Publicly Disclosed:No;Exploited:No"; entry 1 "Exploited:Yes;Latest"].

(** A record whose first score set carries no base score and whose second
    one does. *)
Definition score_in_second_set : json :=
  vuln "CVE-2024-0007" [JDict []; JDict [("BaseScore", JFloat 9.5)]]
       [entry 1 "Exploited:Yes"].

(** A record whose second Exploit entry is the all-caps phrase. *)
Definition all_caps_likely : json :=
  vuln "CVE-2024-0008" [] [entry 1 "Exploitation Less Likely"; entry 1 "EXPLOITATION MORE LIKELY"].

(** The records of the spec's examples: one scored 8.5, one with no
    score sets. *)
Definition scored_high : json :=
  vuln "CVE-2024-0009" [JDict [("BaseScore", JFloat 8.5)]] [].

Definition no_score_sets : json :=
  JDict [("CVE", JStr "CVE-2024-0010"); ("Title", JDict [("Value", JStr "Unscored")])].

(** A bulletin without a title; its first record has no field at all. *)
Definition untitled_bulletin : list (string * json) :=
  [("Vulnerability", JList [JDict []; second_says_yes; scored_high])].

Definition ok_response (doc : json) : response :=
  {| status_code := 200; json_body := Ok doc |}.

(** A bulletin with a title and four records: one credited with
    Spoofing, one exploited, one scored 8.5, one likely to be exploited. *)
Definition titled_bulletin : list (string * json) :=
  [("DocumentTitle", JDict [("Value", JStr "January 2024 Security Updates")]);
   ("Vulnerability", JList [two_spoofing; second_says_yes; scored_high; all_caps_likely])].

(** A bulletin whose title is the one character U+0001. *)
Definition control_character_title : list (string * json) :=
  [("DocumentTitle", JDict [("Value", JStr (String (ascii_of_nat 1) EmptyString))])].

(** The sheets of the report on [titled_bulletin] for January 2024. *)
Definition titled_bulletin_sheets : list sheet :=
  [ {| sheet_name := "Summary"; with_index := false;
       content := SummaryFrame (JStr "January 2024 Security Updates") "2024-Jan" 4 |};
    {| sheet_name := "By Classification"; with_index := true;
       content := CountsFrame
         [("Elevation of Privilege", 0); ("Security Feature Bypass", 0);
          ("Remote Code Execution", 0); ("Information Disclosure", 0);
          ("Denial of Service", 0); ("Spoofing", 1); ("Edge - Chromium", 0)] |};
    {| sheet_name := "Exploited in Wild"; with_index := false;
       content := RowsFrame
         [JDict [("CVE", JStr "CVE-2024-0003"); ("Score", JFloat 7.5);
                 ("Title", JStr "A flaw")]] |};
    {| sheet_name := "High Severity (≥8.0)"; with_index := false;
       content := RowsFrame
         [JDict [("CVE", JStr "CVE-2024-0009"); ("Score", JFloat 8.5);
                 ("Title", JStr "A flaw")]] |};
    {| sheet_name := "Likely Exploited"; with_index := false;
       content := RowsFrame
         [JDict [("CVE", JStr "CVE-2024-0008"); ("Title", JStr "A flaw")]] |} ].

(** ** A spreadsheet library for the examples

    As openpyxl does, it refuses a text cell that holds a control
    character other than tab, line feed and carriage return.  It refuses
    nothing else, and the writer opens and closes without raising. *)

Definition illegal_character (c : ascii) : bool :=
  let n := nat_of_ascii c in
  Nat.ltb n 32 && negb (Nat.eqb n 9 || Nat.eqb n 10 || Nat.eqb n 13).

Fixpoint has_illegal_character (s : string) : bool :=
  match s with
  | EmptyString => false
  | String c s' => illegal_character c || has_illegal_character s'
  end.

Definition cell_refused (x : json) : bool :=
  match x with
  | JStr s => has_illegal_character s
  | _ => false
  end.

Definition frame_refused (df : frame) : bool :=
  match df with
  | SummaryFrame release_title ym _ => cell_refused release_title || has_illegal_character ym
  | CountsFrame rows => existsb (λ row, has_illegal_character row.1) rows
  | RowsFrame rows =>
      existsb (λ r, match r with
                    | JDict cells => existsb (λ kv, cell_refused kv.2) cells
                    | _ => false
                    end) rows
  end.

Definition refusing_control_characters : excel_library :=
  {| open_raises := λ _, None;
     to_excel_raises := λ sh,
       if frame_refused (content sh) then Some IllegalCharacterError else None;
     close_raises := λ _ _, None |}.

(** ** The rest of the module

    The request, the period and the column widths of [main], and the
    vocabulary of the properties proved about them. *)

Definition API_VERSION : string := "v3.0".
Definition BASE_URL : string :=
  "https://api.msrc.microsoft.com/cvrf/" +:+ API_VERSION +:+ "/cvrf/".

(** [url = BASE_URL + self.year_month] *)
Definition request_url (ym : string) : string := BASE_URL +:+ ym.

(** [f"MSRC_{ym}.xlsx"] *)
Definition report_file (ym : string) : string := "MSRC_" +:+ ym +:+ ".xlsx".

(** What [datetime.datetime.now()] gives that [strftime("%Y-%b")] reads. *)
Record datetime := { dt_year : Z; dt_month : Z }.

(** [%b]: the abbreviated month name of the C locale, the one the
    interpreter runs in unless [setlocale] is called; the module never
    calls it. *)
Definition month_abbr (m : Z) : string :=
  match m with
  | 1 => "Jan" | 2 => "Feb" | 3 => "Mar" | 4 => "Apr"
  | 5 => "May" | 6 => "Jun" | 7 => "Jul" | 8 => "Aug"
  | 9 => "Sep" | 10 => "Oct" | 11 => "Nov" | 12 => "Dec"
  | _ => ""
  end.

(** [datetime.datetime.now().strftime("%Y-%b")], as a function of the
    clock reading.  [%Y] is the year in decimal; from the year 1000 on
    every platform prints its four digits. *)
Definition current_year_month (now : datetime) : string :=
  pretty (dt_year now) +:+ "-" +:+ month_abbr (dt_month now).

(** [max(xs)] of a sequence of ints; of an empty one it raises. *)
Definition py_max (xs : list Z) : result Z :=
  match xs with
  | [] => Raise ValueError
  | x :: rest => Ok (fold_left Z.max rest x)
  end.

Section ColumnWidths.

(** A cell, and the length of [str(cell.value)]. *)
Variable cell : Type.
Variable text_len : cell → Z.

(** [max(len(str(cell.value)) for cell in col_cells) + 2] *)
Definition column_width (col_cells : list cell) : result Z :=
  let* longest := py_max (map text_len col_cells) in
  Ok (longest + 2).

(** The widths [main] sets on one sheet, column by column. *)
Fixpoint sheet_widths (columns : list (list cell)) : result (list Z) :=
  match columns with
  | [] => Ok []
  | col_cells :: rest =>
      let* width := column_width col_cells in
      let* widths := sheet_widths rest in
      Ok (width :: widths)
  end.

End ColumnWidths.

(** Label by label, the sum of two count frames. *)
Definition add_counts (a b : list (string * Z)) : list (string * Z) :=
  zip_with (λ x y, (x.1, x.2 + y.2)) a b.

(** Two records that hold the same value, or both none, under each of
    [keys]. *)
Definition same_fields (keys : list string) (v v' : json) : Prop :=
  match v, v' with
  | JDict a, JDict b => ∀ k, k ∈ keys → dict_lookup k a = dict_lookup k b
  | _, _ => v = v'
  end.

(** A record made of its threat entries and its other fields. *)
Definition with_threats (ts : list json) (fields : list (string * json)) : json :=
  JDict (("Threats", JList ts) :: fields).

(** The kinds of value Python tells apart when it hashes a key or looks
    into a container. *)
Definition is_dict (x : json) : bool :=
  match x with JDict _ => true | _ => false end.

(** Lists and dicts cannot be hashed. *)
Definition unhashable (x : json) : bool :=
  match x with JList _ | JDict _ => true | _ => false end.

(** [None], booleans and numbers are no containers: [in] raises on them. *)
Definition not_container (x : json) : bool :=
  match x with JNull | JBool _ | JInt _ | JFloat _ => true | _ => false end.

(** The shape [YYYY-Mmm]: four decimal digits, a dash, a capital and two
    small letters. *)
Definition is_digit (c : ascii) : bool :=
  let n := nat_of_ascii c in (Nat.leb 48 n && Nat.leb n 57)%bool.

Definition is_upper (c : ascii) : bool :=
  let n := nat_of_ascii c in (Nat.leb 65 n && Nat.leb n 90)%bool.

Definition is_lower (c : ascii) : bool :=
  let n := nat_of_ascii c in (Nat.leb 97 n && Nat.leb n 122)%bool.

Definition period_shape (s : string) : bool :=
  match s with
  | String a (String b (String c (String d (String e
      (String f (String g (String h EmptyString))))))) =>
      is_digit a && is_digit b && is_digit c && is_digit d && Ascii.eqb e "-" &&
      is_upper f && is_lower g && is_lower h
  | _ => false
  end.

(** The year and the month a period names, read back from its text. *)
Definition digit_value (c : ascii) : Z := Z.of_nat (nat_of_ascii c) - 48.

Definition period_month (abbr : string) : Z :=
  default 0 (List.find (λ m, String.eqb (month_abbr m) abbr) (seqZ 1 12)).

Definition period_clock (s : string) : datetime :=
  match s with
  | String a (String b (String c (String d (String _ abbr)))) =>
      {| dt_year := 1000 * digit_value a + 100 * digit_value b
                    + 10 * digit_value c + digit_value d;
         dt_month := period_month abbr |}
  | _ => {| dt_year := 0; dt_month := 0 |}
  end.

(** The year prints as four digits that read back as the year. *)
Definition year_checked (y : Z) : bool :=
  match pretty y with
  | String a (String b (String c (String d EmptyString))) =>
      is_digit a && is_digit b && is_digit c && is_digit d &&
      Z.eqb (1000 * digit_value a + 100 * digit_value b
             + 10 * digit_value c + digit_value d) y
  | _ => false
  end.

(** * Proofs *)

Local Arguments tab : simpl never.

(** ** The result monad and the loops *)

Lemma bind_ok {A B} (m : result A) (k : A → result B) b :
  bind m k = Ok b ↔ ∃ a, m = Ok a ∧ k a = Ok b.
Proof.
  destruct m as [a|e]; simpl; split.
  - eauto.
  - intros (a' & Ha & Hk). by inversion Ha.
  - discriminate.
  - intros (a' & Ha & _). discriminate.
Qed.

Lemma is_ok_true {A} (m : result A) : is_ok m = true ↔ ∃ a, m = Ok a.
Proof.
  destruct m; simpl; split; eauto; try discriminate.
  intros [a Ha]. discriminate.
Qed.

Ltac bind_inv H :=
  let a := fresh "a" in
  let Ha := fresh "Ha" in
  apply bind_ok in H; destruct H as (a & Ha & H).

Lemma foldM_app {S A} (body : S → A → result S) s l1 l2 :
  foldM body s (l1 ++ l2) = let* s' := foldM body s l1 in foldM body s' l2.
Proof.
  revert s. induction l1 as [|a l1 IH]; intros s; simpl; [done|].
  destruct (body s a); simpl; [apply IH | done].
Qed.

(** ** Strings *)

Lemma string_eqb_eq (a b : string) : String.eqb a b = bool_decide (a = b).
Proof.
  destruct (String.eqb_spec a b); symmetry;
    [by apply bool_decide_eq_true | by apply bool_decide_eq_false].
Qed.

Lemma append_cons c a b : String.append (String c a) b = String c (String.append a b).
Proof. reflexivity. Qed.

Lemma prefix_spec (n h : string) :
  str_prefix n h = true ↔ ∃ b, h = String.append n b.
Proof.
  revert h. induction n as [|c n IH]; intros h; simpl.
  - split; [intros _; by exists h | done].
  - destruct h as [|c' h].
    + split; [discriminate | intros [b Hb]; discriminate].
    + rewrite andb_true_iff, IH, Ascii.eqb_eq. split.
      * intros [-> [b ->]]. by exists b.
      * intros [b Hb]. rewrite append_cons in Hb. inversion Hb. eauto.
Qed.

(** [needle in hay] holds exactly when [hay] is some text, then [needle],
    then some text. *)
Lemma str_contains_spec (n h : string) :
  str_contains n h = true ↔ ∃ a b, h = String.append a (String.append n b).
Proof.
  induction h as [|c h IH]; simpl.
  - rewrite orb_false_r, prefix_spec. split.
    + intros [b Hb]. by exists EmptyString, b.
    + intros (a & b & Hab). destruct a as [|c a]; [eauto | discriminate].
  - rewrite orb_true_iff, prefix_spec, IH. split.
    + intros [[b Hb] | (a & b & Hab)].
      * by exists EmptyString, b.
      * exists (String c a), b. by rewrite append_cons, Hab.
    + intros (a & b & Hab). destruct a as [|c' a].
      * left. eauto.
      * right. exists a, b. rewrite append_cons in Hab. congruence.
Qed.

(** ** Dicts over a fixed key list *)

Lemma tab_cons k ks f : tab (k :: ks) f = (k, f k) :: tab ks f.
Proof. reflexivity. Qed.

Lemma tab_ext ks f g : (∀ k, k ∈ ks → f k = g k) → tab ks f = tab ks g.
Proof.
  intros H. induction ks as [|k ks IH]; [done|]. rewrite !tab_cons.
  rewrite H by left. f_equal. apply IH. intros k' Hk'. apply H. by right.
Qed.

Lemma tab_keys ks f : (tab ks f).*1 = ks.
Proof. unfold tab. induction ks; csimpl; congruence. Qed.

Lemma dict_lookup_tab ks f s :
  dict_lookup s (tab ks f) = if bool_decide (s ∈ ks) then Some (f s) else None.
Proof.
  induction ks as [|k ks IH]; [done|]. rewrite tab_cons. simpl.
  rewrite string_eqb_eq. destruct (decide (k = s)) as [->|Hne].
  - rewrite !bool_decide_eq_true_2; [done | left | done].
  - rewrite (bool_decide_eq_false_2 (k = s)), IH by done.
    rewrite (bool_decide_ext (s ∈ k :: ks) (s ∈ ks)); [done|].
    rewrite elem_of_cons. split; [intros [->|?]; done | by right].
Qed.

Lemma dict_incr_tab ks f l :
  NoDup ks → l ∈ ks →
  dict_incr l (tab ks f) = Ok (tab ks (λ k, f k + if bool_decide (k = l) then 1 else 0)).
Proof.
  induction 1 as [|k ks Hk Hnd IH]; intros Hl; [by apply elem_of_nil in Hl|].
  rewrite !tab_cons. simpl. rewrite string_eqb_eq. destruct (decide (k = l)) as [->|Hkl].
  - rewrite !bool_decide_eq_true_2 by done. simpl. do 2 f_equal.
    apply tab_ext. intros k Hin.
    rewrite bool_decide_eq_false_2; [lia | intros ->; done].
  - rewrite (bool_decide_eq_false_2 (k = l)) by done.
    apply elem_of_cons in Hl as [->|Hl]; [done|].
    rewrite (IH Hl). simpl. do 3 f_equal. lia.
Qed.

(** The loop [for label in seen: counts[label] += 1], for any order in
    which the set hands out its elements. *)
Lemma incr_all_tab ks ls f :
  NoDup ks → NoDup ls → (∀ l, l ∈ ls → l ∈ ks) →
  foldM (λ c label, dict_incr label c) (tab ks f) ls
  = Ok (tab ks (λ k, f k + if bool_decide (k ∈ ls) then 1 else 0)).
Proof.
  intros Hks Hls. revert f. induction Hls as [|l ls Hl Hnd IH]; intros f Hsub; simpl.
  - f_equal. apply tab_ext. intros k _. lia.
  - rewrite dict_incr_tab by (auto; apply Hsub; left). simpl.
    rewrite IH by (intros; apply Hsub; by right).
    f_equal. apply tab_ext. intros k _.
    rewrite (bool_decide_ext (k ∈ l :: ls) (k = l ∨ k ∈ ls)) by apply elem_of_cons.
    repeat case_bool_decide; try lia; try tauto.
    subst k. tauto.
Qed.

(** ** The classification counter *)

Lemma initial_counts_tab : initial_counts = tab VULN_CLASSIFICATIONS (λ _, 0).
Proof. reflexivity. Qed.

Lemma labels_nodup : NoDup VULN_CLASSIFICATIONS.
Proof. apply (bool_decide_unpack _). by vm_compute. Qed.

Lemma threat_label_tab ks f g t : threat_label (tab ks f) t = threat_label (tab ks g) t.
Proof.
  unfold threat_label.
  destruct (py_get t "Type" JNull) as [ty|]; simpl; [|done].
  destruct (negb (py_eq_int ty THREAT_TYPE_VULN)); [done|].
  destruct (threat_description t) as [desc|]; simpl; [|done].
  destruct (py_eq_str desc "Edge - Chromium"); [done|].
  destruct desc; simpl; try done.
  rewrite !dict_lookup_tab. by case_bool_decide.
Qed.

Lemma foldM_ext {S A} (f g : S → A → result S) s l :
  (∀ s a, f s a = g s a) → foldM f s l = foldM g s l.
Proof.
  intros H. revert s. induction l as [|a l IH]; intros s; simpl; [done|].
  rewrite H. destruct (g s a); simpl; auto.
Qed.

Lemma vuln_seen_tab ks f g v : vuln_seen (tab ks f) v = vuln_seen (tab ks g) v.
Proof.
  unfold vuln_seen. destruct (threats_of v) as [ts|]; simpl; [|done].
  apply foldM_ext. intros s t. by rewrite (threat_label_tab ks f g).
Qed.

Lemma threat_label_in ks f t l :
  "Edge - Chromium" ∈ ks → threat_label (tab ks f) t = Ok (Some l) → l ∈ ks.
Proof.
  intros Hedge. unfold threat_label. intros H.
  bind_inv H. destruct (negb _); [discriminate|].
  bind_inv H. destruct (py_eq_str _ _).
  - bind_inv H. bind_inv H. destruct a2; inversion H. by subst.
  - destruct a0; simpl in H; try discriminate.
    rewrite dict_lookup_tab in H. case_bool_decide; inversion H. by subst.
Qed.

(** [seen] after the inner loop: what it held before and every label an
    entry gave. *)
Lemma seen_loop c ts s0 s :
  foldM (λ seen t, let* o := threat_label c t in Ok (seen_add seen o)) s0 ts = Ok s →
  ∀ l, l ∈ s ↔ l ∈ s0 ∨ ∃ t, t ∈ ts ∧ threat_label c t = Ok (Some l).
Proof.
  revert s0. induction ts as [|t ts IH]; intros s0 H l; simpl in H.
  - inversion H; subst. split; [auto|]. intros [?|(t & Ht & _)]; [done|].
    by apply elem_of_nil in Ht.
  - bind_inv H. bind_inv Ha. inversion Ha; subst a. clear Ha.
    rewrite (IH _ H l). split.
    + intros [Hl|(t' & Ht' & Hl)].
      * destruct a0 as [l'|]; simpl in Hl; [|auto].
        apply elem_of_union in Hl as [Hl|Hl]; [|auto].
        apply elem_of_singleton in Hl as ->. right. exists t. split; [left|done].
      * right. exists t'. split; [by right|done].
    + intros [Hl|(t' & Ht' & Hl)].
      * left. destruct a0; simpl; [apply elem_of_union; auto | done].
      * apply elem_of_cons in Ht' as [->|Ht'].
        -- left. rewrite Ha0 in Hl. inversion Hl; subst. simpl.
           apply elem_of_union. left. by apply elem_of_singleton.
        -- right. eauto.
Qed.

Lemma vuln_seen_spec c v s :
  vuln_seen c v = Ok s →
  ∀ l, l ∈ s ↔ ∃ t, t ∈ threat_list v ∧ threat_label c t = Ok (Some l).
Proof.
  unfold vuln_seen, threat_list. intros H l. bind_inv H. rewrite Ha.
  rewrite (seen_loop _ _ _ _ H l). split; [|auto].
  intros [Hl|?]; [|done]. by apply not_elem_of_empty in Hl.
Qed.

Lemma count_vuln_ok f v seen :
  vuln_seen initial_counts v = Ok seen →
  count_vuln (tab VULN_CLASSIFICATIONS f) v
  = Ok (tab VULN_CLASSIFICATIONS (λ k, f k + if bool_decide (k ∈ seen) then 1 else 0)).
Proof.
  intros Hs. unfold count_vuln.
  rewrite (vuln_seen_tab _ f (λ _, 0)), <- initial_counts_tab, Hs. simpl.
  rewrite incr_all_tab.
  - f_equal. apply tab_ext. intros k _.
    by rewrite (bool_decide_ext (k ∈ elements seen) (k ∈ seen)) by apply elem_of_elements.
  - apply labels_nodup.
  - apply NoDup_elements.
  - intros l Hl. apply elem_of_elements in Hl.
    apply (vuln_seen_spec _ _ _ Hs) in Hl as (t & _ & Ht).
    rewrite initial_counts_tab in Ht. apply threat_label_in in Ht; [done|].
    apply (bool_decide_unpack _). by vm_compute.
Qed.

Lemma count_vuln_seen_ok c v c' : count_vuln c v = Ok c' → is_ok (vuln_seen c v) = true.
Proof. unfold count_vuln. intros H. bind_inv H. by rewrite Ha. Qed.

(** The outer loop, from any running totals [f]: each record credited
    with a label adds one to it. *)
Lemma counts_loop f vs :
  Forall (λ v, is_ok (vuln_seen initial_counts v) = true) vs →
  foldM count_vuln (tab VULN_CLASSIFICATIONS f) vs
  = Ok (tab VULN_CLASSIFICATIONS
          (λ k, f k + Z.of_nat (length (List.filter (credited k) vs)))).
Proof.
  intros H. revert f. induction H as [|v vs Hv _ IH]; intros f; simpl.
  - f_equal. apply tab_ext. intros; lia.
  - apply is_ok_true in Hv as [seen Hs].
    rewrite (count_vuln_ok _ _ _ Hs). simpl. rewrite IH. f_equal.
    apply tab_ext. intros k _. unfold credited at 2. rewrite Hs.
    destruct (bool_decide (k ∈ seen)); simpl; lia.
Qed.

Lemma counts_loop_ok f vs out :
  foldM count_vuln (tab VULN_CLASSIFICATIONS f) vs = Ok out →
  Forall (λ v, is_ok (vuln_seen initial_counts v) = true) vs.
Proof.
  revert f. induction vs as [|v vs IH]; intros f H; [constructor|].
  simpl in H. bind_inv H.
  pose proof (count_vuln_seen_ok _ _ _ Ha) as Hok.
  rewrite (vuln_seen_tab _ f (λ _, 0)), <- initial_counts_tab in Hok.
  constructor; [done|].
  apply is_ok_true in Hok as [seen Hs].
  rewrite (count_vuln_ok _ _ _ Hs) in Ha. inversion Ha; subst. eauto.
Qed.

(** ** Records that follow the schema *)

Lemma forallb_Forall {A} (p : A → bool) (l : list A) :
  forallb p l = true ↔ Forall (λ a, p a = true) l.
Proof.
  induction l as [|a l IH]; simpl.
  - split; [constructor | done].
  - rewrite andb_true_iff, IH. split.
    + intros [? ?]. by constructor.
    + intros H. by inversion H.
Qed.

Lemma foldM_total {S A} (body : S → A → result S) (l : list A) s :
  Forall (λ a, ∀ s, is_ok (body s a) = true) l → is_ok (foldM body s l) = true.
Proof.
  intros H. revert s. induction H as [|a l Ha _ IH]; intros s; simpl; [done|].
  specialize (Ha s). destruct (body s a); [apply IH | discriminate].
Qed.

Lemma wf_threat_dict t :
  wf_threat t = true →
  (∃ kvs, t = JDict kvs) ∧
  threat_description t = Ok (JStr (entry_description t)) ∧
  py_get t "ProductID" (JList []) = Ok (JList (entry_product_ids t)).
Proof.
  destruct t as [| | | | | |kvs]; try discriminate.
  unfold wf_threat, entry_description, entry_product_ids, threat_description. simpl.
  intros H. apply andb_true_iff in H as [Hd Hp]. split; [eauto|]. split.
  - destruct (dict_lookup "Description" kvs) as [[| | | | | |d]|]; try discriminate; simpl; [|done].
    destruct (dict_lookup "Value" d) as [[]|]; try discriminate; done.
  - destruct (dict_lookup "ProductID" kvs) as [[]|]; try discriminate; done.
Qed.

(** On a well-formed entry the inner loop's body returns, and the label
    it gives is the one Section 4.3 names. *)
Lemma threat_label_wf t :
  wf_threat t = true →
  ∃ o, threat_label initial_counts t = Ok o ∧
       ∀ l, o = Some l ↔ entry_credits l t = true.
Proof.
  intros Hwf. destruct (wf_threat_dict t Hwf) as ([kvs ->] & Hd & Hp).
  rewrite initial_counts_tab. unfold threat_label, entry_credits, entry_type_is.
  rewrite Hd, Hp. cbn [bind py_get py_eq_str py_in_str py_in_counts].
  set (ty := default JNull (dict_lookup "Type" kvs)).
  set (d := entry_description (JDict kvs)).
  destruct (py_eq_int ty THREAT_TYPE_VULN); cbn [negb andb bind].
  2:{ exists None. split; [done|]. intros l. split; discriminate. }
  rewrite !string_eqb_eq. destruct (decide (d = "Edge - Chromium")) as [Hed|Hed].
  - rewrite (bool_decide_eq_true_2 _ Hed).
    destruct (existsb _ _) eqn:Hex; eexists; (split; [done|]); intros l.
    + rewrite !string_eqb_eq. split.
      * intros [= <-]. rewrite Hed. by rewrite bool_decide_eq_true_2.
      * intros H. apply andb_true_iff in H as [H _].
        apply bool_decide_eq_true in H. congruence.
    + rewrite !string_eqb_eq. split; [discriminate|].
      intros H. apply andb_true_iff in H as [H1 H2].
      apply bool_decide_eq_true in H1. subst l.
      rewrite (bool_decide_eq_true_2 _ Hed) in H2. done.
  - rewrite (bool_decide_eq_false_2 _ Hed). rewrite dict_lookup_tab.
    case_bool_decide as Hin; eexists; (split; [done|]); intros l.
    + rewrite !string_eqb_eq. split.
      * intros [= <-]. rewrite bool_decide_eq_true_2 by done.
        rewrite (bool_decide_eq_false_2 _ Hed). by rewrite bool_decide_eq_true_2.
      * intros H. apply andb_true_iff in H as [H _].
        apply bool_decide_eq_true in H. congruence.
    + rewrite !string_eqb_eq. split; [discriminate|].
      intros H. apply andb_true_iff in H as [H1 H2].
      apply bool_decide_eq_true in H1. subst l.
      rewrite (bool_decide_eq_false_2 _ Hed) in H2.
      apply bool_decide_eq_true in H2. done.
Qed.

Lemma wf_vuln_threats v :
  wf_vuln v = true →
  threats_of v = Ok (threat_list v) ∧ Forall (λ t, wf_threat t = true) (threat_list v).
Proof.
  destruct v as [| | | | | |kvs]; try discriminate.
  unfold wf_vuln, threat_list, threats_of. simpl. intros H.
  apply andb_true_iff in H as [H _]. apply andb_true_iff in H as [H _].
  destruct (dict_lookup "Threats" kvs) as [[| | | | |ts|]|]; try discriminate; simpl.
  - split; [done|]. by apply forallb_Forall.
  - split; [done|constructor].
Qed.

(** What the readers of the module give is what the record holds. *)
Lemma entry_type_is_field n t : entry_type_is n t = type_field_is n t.
Proof.
  destruct t as [| | | | | |kvs]; try reflexivity.
  unfold entry_type_is, type_field_is. simpl.
  destruct (dict_lookup "Type" kvs) as [[|[]| | | | |]|]; reflexivity.
Qed.

Lemma entry_description_field t : entry_description t = description_text t.
Proof.
  destruct t as [| | | | | |kvs]; try reflexivity.
  unfold entry_description, description_text, threat_description. simpl.
  destruct (dict_lookup "Description" kvs) as [[| | | | | |d]|]; try reflexivity.
  simpl. destruct (dict_lookup "Value" d) as [[]|]; reflexivity.
Qed.

Lemma entry_sentinel_field t :
  existsb (λ y, py_eq_str y "11655") (entry_product_ids t) = lists_sentinel t.
Proof.
  destruct t as [| | | | | |kvs]; try reflexivity.
  unfold entry_product_ids, lists_sentinel. simpl.
  destruct (dict_lookup "ProductID" kvs) as [[]|]; reflexivity.
Qed.

Lemma entry_credits_field l t : entry_credits l t = names_label l t.
Proof.
  unfold entry_credits, names_label.
  by rewrite entry_type_is_field, entry_description_field, entry_sentinel_field.
Qed.

Lemma threat_list_field v : wf_vuln v = true → threat_list v = threats_field v.
Proof.
  destruct v as [| | | | | |kvs]; try discriminate.
  unfold wf_vuln, threat_list, threats_field, threats_of. simpl. intros H.
  apply andb_true_iff in H as [H _]. apply andb_true_iff in H as [H _].
  destruct (dict_lookup "Threats" kvs) as [[| | | | |ts|]|]; try discriminate; reflexivity.
Qed.

Lemma vuln_seen_wf v :
  wf_vuln v = true → is_ok (vuln_seen initial_counts v) = true.
Proof.
  intros Hwf. destruct (wf_vuln_threats v Hwf) as [Hts Hall].
  unfold vuln_seen. rewrite Hts. simpl. apply foldM_total.
  eapply Forall_impl; [exact Hall|]. intros t Ht s. simpl in Ht.
  destruct (threat_label_wf t Ht) as (o & -> & _). done.
Qed.

Lemma credited_wf l v :
  wf_vuln v = true → credited l v = existsb (entry_credits l) (threat_list v).
Proof.
  intros Hwf. destruct (wf_vuln_threats v Hwf) as [Hts Hall].
  unfold credited. pose proof (vuln_seen_wf v Hwf) as Hok.
  apply is_ok_true in Hok as [seen Hs]. rewrite Hs.
  pose proof (vuln_seen_spec _ _ _ Hs l) as Hl.
  apply eq_true_iff_eq. rewrite bool_decide_eq_true, Hl, existsb_exists.
  split; intros (t & Ht & Hc); exists t.
  - split; [by apply list_elem_of_In|].
    rewrite Forall_forall in Hall. destruct (threat_label_wf t (Hall t Ht)) as (o & Ho & Hiff).
    apply Hiff. congruence.
  - apply list_elem_of_In in Ht. split; [done|].
    rewrite Forall_forall in Hall. destruct (threat_label_wf t (Hall t Ht)) as (o & Ho & Hiff).
    apply Hiff in Hc. congruence.
Qed.

(** The whole counter on a schema-conformant list. *)
Lemma classification_counts_wf vs :
  forallb wf_vuln vs = true →
  classification_counts (JList vs)
  = Ok (tab VULN_CLASSIFICATIONS
          (λ l, Z.of_nat (length
             (List.filter (λ v, existsb (entry_credits l) (threat_list v)) vs)))).
Proof.
  intros Hwf. apply forallb_Forall in Hwf.
  unfold classification_counts. simpl. rewrite initial_counts_tab, counts_loop.
  - f_equal. apply tab_ext. intros l _. rewrite Z.add_0_l. do 2 f_equal.
    apply filter_ext_in. intros v Hv. apply credited_wf.
    rewrite Forall_forall in Hwf. apply Hwf. by apply list_elem_of_In.
  - eapply Forall_impl; [exact Hwf|]. intros v Hv. by apply vuln_seen_wf.
Qed.

(** Whatever the input, a returned frame has the seven labels as its
    index, in the order of [VULN_CLASSIFICATIONS]. *)
Lemma classification_counts_keys vulns out :
  classification_counts vulns = Ok out → out.*1 = VULN_CLASSIFICATIONS.
Proof.
  unfold classification_counts. intros H. bind_inv H.
  rewrite initial_counts_tab in H. pose proof (counts_loop_ok _ _ _ H) as Hok.
  rewrite (counts_loop _ _ Hok) in H. inversion H. apply tab_keys.
Qed.

Lemma count_of_tab ks f l : l ∈ ks → count_of l (tab ks f) = Some (f l).
Proof.
  intros Hl. unfold count_of. rewrite dict_lookup_tab.
  by rewrite bool_decide_eq_true_2.
Qed.

Lemma filter_insert_length {A} (p : A → bool) (l1 l2 : list A) a :
  Z.of_nat (length (List.filter p (l1 ++ a :: l2)))
  = Z.of_nat (length (List.filter p (l1 ++ l2))) + (if p a then 1 else 0).
Proof.
  rewrite !List.filter_app, !length_app. simpl.
  destruct (p a); simpl; lia.
Qed.

Lemma existsb_min_filter {A} (p : A → bool) (l : list A) :
  (if existsb p l then 1 else 0) = Z.min 1 (Z.of_nat (length (List.filter p l))).
Proof.
  induction l as [|a l IH]; simpl; [done|].
  destruct (p a); simpl; [lia | exact IH].
Qed.

Lemma forallb_insert {A} (p : A → bool) (l1 l2 : list A) a :
  forallb p (l1 ++ a :: l2) = true →
  p a = true ∧ forallb p (l1 ++ l2) = true.
Proof.
  rewrite !forallb_app. simpl. rewrite !andb_true_iff. tauto.
Qed.

(** Putting one more record [v] into the list changes the count of a
    label by one when [v] is credited with it and by nothing otherwise. *)
Lemma counts_insert vs1 v vs2 l :
  forallb wf_vuln (vs1 ++ v :: vs2) = true → l ∈ VULN_CLASSIFICATIONS →
  ∃ out out' n,
    classification_counts (JList (vs1 ++ vs2)) = Ok out ∧
    classification_counts (JList (vs1 ++ v :: vs2)) = Ok out' ∧
    count_of l out = Some n ∧
    count_of l out' = Some (n + if credited l v then 1 else 0).
Proof.
  intros Hwf Hl. destruct (forallb_insert _ _ _ _ Hwf) as [Hv Hwf'].
  rewrite (classification_counts_wf _ Hwf), (classification_counts_wf _ Hwf').
  do 3 eexists. split; [done|]. split; [done|].
  rewrite !count_of_tab by done. split; [done|].
  by rewrite filter_insert_length, <- credited_wf.
Qed.

(** * The claims *)

(** ** Classification counter *)

(** C1.  A vulnerability moves the count of a label by at most one: with
    [k] threat entries that name the label (Vulnerability-type entries
    whose description is that label), putting the vulnerability into the
    list raises the label's count by [min 1 k] -- by exactly 1 when two or
    more entries name the label, never by 2.  The entries and their
    fields are those the record holds. *)
Theorem classification_counts_once_per_vuln (vs1 : list json) (v : json) (vs2 : list json) (l : string) :
  forallb wf_vuln (vs1 ++ v :: vs2) = true →
  l ∈ VULN_CLASSIFICATIONS →
  ∃ out out' n,
    classification_counts (JList (vs1 ++ vs2)) = Ok out ∧
    classification_counts (JList (vs1 ++ v :: vs2)) = Ok out' ∧
    count_of l out = Some n ∧
    count_of l out'
    = Some (n + Z.min 1 (Z.of_nat (length (List.filter (names_label l) (threats_field v))))).
Proof.
  intros Hwf Hl. destruct (counts_insert _ _ _ _ Hwf Hl) as (out & out' & n & H1 & H2 & H3 & H4).
  exists out, out', n. repeat split; try done.
  rewrite H4. destruct (forallb_insert _ _ _ _ Hwf) as [Hv _].
  rewrite (credited_wf _ _ Hv), existsb_min_filter, (threat_list_field _ Hv).
  do 5 f_equal. apply filter_ext. intros t. apply entry_credits_field.
Qed.

(** The record of the spec's example, alone in the list: both its entries
    name Spoofing, and the count goes from 0 to 1. *)
Lemma classification_counts_once_per_vuln_witness :
  length (List.filter (names_label "Spoofing") (threats_field two_spoofing)) = 2%nat ∧
  ∃ out out',
    classification_counts (JList []) = Ok out ∧
    classification_counts (JList [two_spoofing]) = Ok out' ∧
    count_of "Spoofing" out = Some 0 ∧
    count_of "Spoofing" out' = Some 1.
Proof.
  split; [reflexivity|].
  destruct (classification_counts_once_per_vuln [] two_spoofing [] "Spoofing" eq_refl)
    as (out & out' & n & H1 & H2 & H3 & H4).
  - apply (bool_decide_unpack _). by vm_compute.
  - exists out, out'. split; [exact H1|]. split; [exact H2|].
    assert (Hn : n = 0).
    { injection H1 as <-. injection H3 as <-. reflexivity. }
    subst n. split; [exact H3 | exact H4].
Defined.

Example two_spoofing_counts_once :
  classification_counts (JList [two_spoofing])
  = Ok [("Elevation of Privilege", 0); ("Security Feature Bypass", 0);
        ("Remote Code Execution", 0); ("Information Disclosure", 0);
        ("Denial of Service", 0); ("Spoofing", 1); ("Edge - Chromium", 0)].
Proof. by vm_compute. Qed.




Example edge_without_sentinel_not_counted :
  classification_counts (JList [edge_vuln ["99999"]])
  = Ok [("Elevation of Privilege", 0); ("Security Feature Bypass", 0);
        ("Remote Code Execution", 0); ("Information Disclosure", 0);
        ("Denial of Service", 0); ("Spoofing", 0); ("Edge - Chromium", 0)].
Proof. by vm_compute. Qed.

Example edge_with_sentinel_counted_once :
  classification_counts (JList [edge_vuln ["11655"; "5"]])
  = Ok [("Elevation of Privilege", 0); ("Security Feature Bypass", 0);
        ("Remote Code Execution", 0); ("Information Disclosure", 0);
        ("Denial of Service", 0); ("Spoofing", 0); ("Edge - Chromium", 1)].
Proof. by vm_compute. Qed.

(** C3.  On every schema-conformant list -- empty, or with descriptions
    that are no label at all -- the counter returns, and the index of the
    frame is the seven labels, once each, in the glossary's order; the
    counts play no part in the order. *)
Theorem classification_counts_fixed_labels (vs : list json) :
  forallb wf_vuln vs = true →
  ∃ out, classification_counts (JList vs) = Ok out ∧
         out.*1 = [ "Elevation of Privilege"; "Security Feature Bypass";
                    "Remote Code Execution"; "Information Disclosure";
                    "Denial of Service"; "Spoofing"; "Edge - Chromium" ] ∧
         NoDup (out.*1) ∧ length out = 7%nat.
Proof.
  intros Hwf. rewrite (classification_counts_wf _ Hwf). eexists. split; [done|].
  rewrite tab_keys. split; [done|]. split; [apply labels_nodup|].
  unfold tab. by rewrite length_map.
Qed.

Lemma classification_counts_fixed_labels_witness :
  ∃ out, classification_counts (JList [unknown_label_vuln; two_spoofing]) = Ok out ∧
         out.*1 = [ "Elevation of Privilege"; "Security Feature Bypass";
                    "Remote Code Execution"; "Information Disclosure";
                    "Denial of Service"; "Spoofing"; "Edge - Chromium" ] ∧
         NoDup (out.*1) ∧ length out = 7%nat.
Proof.
  apply (classification_counts_fixed_labels [unknown_label_vuln; two_spoofing]).
  reflexivity.
Defined.

Example empty_list_all_zero :
  classification_counts (JList [])
  = Ok [("Elevation of Privilege", 0); ("Security Feature Bypass", 0);
        ("Remote Code Execution", 0); ("Information Disclosure", 0);
        ("Denial of Service", 0); ("Spoofing", 0); ("Edge - Chromium", 0)].
Proof. reflexivity. Qed.

(** C10.  Each of the seven counts lies between 0 and the number of
    vulnerabilities in the list. *)
Theorem classification_counts_bounded (vs : list json) :
  forallb wf_vuln vs = true →
  ∃ out, classification_counts (JList vs) = Ok out ∧
         length out = 7%nat ∧
         Forall (λ row, (0 ≤ row.2 ≤ Z.of_nat (length vs))%Z) out.
Proof.
  intros Hwf. rewrite (classification_counts_wf _ Hwf). eexists. split; [done|].
  split; [unfold tab; by rewrite length_map|].
  unfold tab. apply Forall_map. apply Forall_forall. intros l _. simpl.
  pose proof (List.filter_length_le
    (λ v, existsb (entry_credits l) (threat_list v)) vs). lia.
Qed.

Lemma classification_counts_bounded_witness :
  ∃ out, classification_counts (JList [two_spoofing; edge_vuln ["11655"]]) = Ok out ∧
         length out = 7%nat ∧
         Forall (λ row, (0 ≤ row.2 ≤ Z.of_nat (length [two_spoofing; edge_vuln ["11655"]]))%Z) out.
Proof.
  apply (classification_counts_bounded [two_spoofing; edge_vuln ["11655"]]).
  reflexivity.
Defined.

(** ** Loops that append rows *)

Lemma scan_threats_rows cond mk rows ts :
  scan_threats cond mk rows ts
  = let* new := scan_threats cond mk [] ts in Ok (rows ++ new).
Proof.
  induction ts as [|t ts IH]; simpl.
  - by rewrite app_nil_r.
  - destruct (cond t) as [[|]|]; simpl; [|exact IH|done].
    by destruct mk.
Qed.

Lemma rows_loop_from {A B} (body : list B → A → result (list B)) rows0 l :
  appends body →
  foldM body rows0 l = let* r := foldM body [] l in Ok (rows0 ++ r).
Proof.
  intros Hb. revert rows0. induction l as [|a l IH]; intros rows0; simpl.
  - by rewrite app_nil_r.
  - rewrite (Hb rows0 a). destruct (body [] a) as [new|]; simpl; [|done].
    rewrite (IH (rows0 ++ new)), (IH new).
    destruct (foldM body [] l); simpl; [|done]. by rewrite app_assoc.
Qed.

(** The rows of a list are the rows of what stands before a record, the
    rows of the record, and the rows of what stands after it, in that
    order. *)
Lemma rows_loop_insert {A B} (body : list B → A → result (list B)) l1 a l2 :
  appends body →
  foldM body [] (l1 ++ a :: l2)
  = let* r1 := foldM body [] l1 in
    let* new := body [] a in
    let* r2 := foldM body [] l2 in
    Ok (r1 ++ new ++ r2).
Proof.
  intros Hb. rewrite foldM_app. destruct (foldM body [] l1) as [r1|]; simpl; [|done].
  rewrite (Hb r1 a). destruct (body [] a) as [new|]; simpl; [|done].
  rewrite (rows_loop_from body (r1 ++ new) l2 Hb).
  destruct (foldM body [] l2); simpl; [|done]. by rewrite app_assoc.
Qed.

Lemma scan_threats_decided cond mk (p : json → bool) ts :
  Forall (λ t, cond t = Ok (p t)) ts →
  scan_threats cond mk [] ts
  = if existsb p ts then (let* r := mk in Ok [r]) else Ok [].
Proof.
  induction 1 as [|t ts Ht _ IH]; simpl; [done|].
  rewrite Ht. simpl. destruct (p t); simpl; [|exact IH].
  by destruct mk.
Qed.

(** The loop leaves at the first hit: what follows it is never read. *)
Lemma scan_threats_break cond mk rows pre t post :
  Forall (λ x, cond x = Ok false) pre → cond t = Ok true →
  scan_threats cond mk rows (pre ++ t :: post)
  = let* r := mk in Ok (rows ++ [r]).
Proof.
  induction 1 as [|x pre Hx _ IH]; intros Ht; simpl.
  - by rewrite Ht.
  - rewrite Hx. simpl. by apply IH.
Qed.

(** ** The fields of a schema-conformant record *)

Lemma wf_vuln_fields v :
  wf_vuln v = true →
  (∃ kvs, v = JDict kvs) ∧
  first_base_score v = Ok (head_base_score (score_sets v)) ∧
  Forall (λ s, wf_score_set s = true) (score_sets v) ∧
  is_ok (vuln_title v) = true.
Proof.
  destruct v as [| | | | | |kvs]; try discriminate.
  unfold wf_vuln, first_base_score, score_sets, vuln_title. simpl. intros H.
  apply andb_true_iff in H as [H Ht]. apply andb_true_iff in H as [_ Hs].
  split; [eauto|].
  destruct (dict_lookup "CVSSScoreSets" kvs) as [[| | | | |ss|]|]; try discriminate; simpl.
  - apply forallb_Forall in Hs. repeat split; try done.
    + destruct Hs as [|s ss Hs _]; [done|]. by destruct s.
    + destruct (dict_lookup "Title" kvs) as [[]|]; try discriminate; done.
  - repeat split; try done.
    destruct (dict_lookup "Title" kvs) as [[]|]; try discriminate; done.
Qed.

Lemma entry_type_wf n t :
  wf_threat t = true →
  ∃ ty, py_get t "Type" JNull = Ok ty ∧ entry_type_is n t = py_eq_int ty n.
Proof.
  intros Hwf. destruct (wf_threat_dict t Hwf) as ([kvs ->] & _ & _).
  unfold entry_type_is. simpl. eauto.
Qed.

Lemma is_exploited_yes_wf t :
  wf_threat t = true → is_exploited_yes t = Ok (says_exploited_yes t).
Proof.
  intros Hwf. destruct (entry_type_wf THREAT_TYPE_EXPLOIT t Hwf) as (ty & Hty & Hn).
  destruct (wf_threat_dict t Hwf) as (_ & Hd & _).
  unfold is_exploited_yes, says_exploited_yes. rewrite Hty, Hn, Hd. simpl.
  by destruct (py_eq_int ty THREAT_TYPE_EXPLOIT).
Qed.

Lemma wild_row_wf v base :
  wf_vuln v = true → is_ok (wild_row v base) = true.
Proof.
  intros Hwf. destruct (wf_vuln_fields v Hwf) as ([kvs ->] & _ & _ & Ht).
  unfold wild_row. simpl. apply is_ok_true in Ht as [ttl ->]. done.
Qed.

Lemma wild_body_appends : appends wild_body.
Proof.
  intros rows v. unfold wild_body.
  destruct (first_base_score v) as [base|]; simpl; [|done].
  destruct (threats_of v) as [ts|]; simpl; [|done].
  apply scan_threats_rows.
Qed.

Lemma exploited_in_wild_list vs : exploited_in_wild (JList vs) = foldM wild_body [] vs.
Proof. reflexivity. Qed.

(** What one schema-conformant record adds: its row when an entry says
    so, nothing otherwise. *)
Lemma wild_body_wf v :
  wf_vuln v = true →
  ∃ r, wild_row v (head_base_score (score_sets v)) = Ok r ∧
       wild_body [] v
       = Ok (if existsb says_exploited_yes (threat_list v) then [r] else []).
Proof.
  intros Hwf. destruct (wf_vuln_fields v Hwf) as (_ & Hb & _ & _).
  destruct (wf_vuln_threats v Hwf) as [Hts Hall].
  pose proof (wild_row_wf v (head_base_score (score_sets v)) Hwf) as Hr.
  apply is_ok_true in Hr as [r Hr]. exists r. split; [done|].
  unfold wild_body. rewrite Hb, Hts. simpl.
  rewrite (scan_threats_decided _ _ says_exploited_yes).
  - rewrite Hr. simpl. by destruct (existsb _ _).
  - eapply Forall_impl; [exact Hall|]. intros t Ht. by apply is_exploited_yes_wf.
Qed.

Lemma rows_loop_total {A B} (body : list B → A → result (list B)) l :
  appends body → Forall (λ a, is_ok (body [] a) = true) l →
  is_ok (foldM body [] l) = true.
Proof.
  intros Hb H. apply foldM_total. eapply Forall_impl; [exact H|].
  intros a Ha rows. simpl in Ha. rewrite (Hb rows a).
  by destruct (body [] a).
Qed.

Lemma exploited_in_wild_total vs :
  forallb wf_vuln vs = true → is_ok (exploited_in_wild (JList vs)) = true.
Proof.
  intros Hwf. apply forallb_Forall in Hwf. rewrite exploited_in_wild_list.
  apply rows_loop_total; [apply wild_body_appends|].
  eapply Forall_impl; [exact Hwf|]. intros v Hv. simpl in Hv.
  destruct (wild_body_wf v Hv) as (r & _ & ->). done.
Qed.

Lemma forallb_split {A} (p : A → bool) (l1 l2 : list A) a :
  forallb p (l1 ++ a :: l2) = true →
  forallb p l1 = true ∧ p a = true ∧ forallb p l2 = true.
Proof.
  rewrite !forallb_app. simpl. rewrite !andb_true_iff. tauto.
Qed.

(** The rows of a schema-conformant list, around one of its records. *)
Lemma exploited_in_wild_insert vs1 v vs2 :
  forallb wf_vuln (vs1 ++ v :: vs2) = true →
  ∃ rows1 r rows2,
    exploited_in_wild (JList vs1) = Ok rows1 ∧
    exploited_in_wild (JList vs2) = Ok rows2 ∧
    wild_row v (head_base_score (score_sets v)) = Ok r ∧
    exploited_in_wild (JList (vs1 ++ v :: vs2))
    = Ok (rows1 ++ (if existsb says_exploited_yes (threat_list v) then [r] else []) ++ rows2).
Proof.
  intros Hwf. destruct (forallb_split _ _ _ _ Hwf) as (H1 & Hv & H2).
  pose proof (exploited_in_wild_total vs1 H1) as Hr1.
  pose proof (exploited_in_wild_total vs2 H2) as Hr2.
  apply is_ok_true in Hr1 as [rows1 Hr1]. apply is_ok_true in Hr2 as [rows2 Hr2].
  destruct (wild_body_wf v Hv) as (r & Hr & Hnew).
  exists rows1, r, rows2. repeat split; try done.
  rewrite exploited_in_wild_list in *.
  rewrite (rows_loop_insert _ _ _ _ wild_body_appends), Hr1, Hnew, Hr2. done.
Qed.

Lemma length_optional_row {A} (b : bool) (r : A) :
  (length (if b then [r] else []) ≤ 1)%nat ∧
  (length (if b then [r] else []) = 1%nat ↔ b = true).
Proof. destruct b; simpl; split; try lia; split; (done || lia). Qed.

Lemma says_exploited_yes_field t :
  says_exploited_yes t = true ↔
  type_field_is 1 t = true ∧ ∃ a b, description_text t = a +:+ "Exploited:Yes" +:+ b.
Proof.
  unfold says_exploited_yes.
  by rewrite entry_type_is_field, entry_description_field, andb_true_iff, str_contains_spec.
Qed.

Lemma exists_entry_field (p : json → bool) (P : json → Prop) v :
  wf_vuln v = true → (∀ t, p t = true ↔ P t) →
  existsb p (threat_list v) = true ↔ ∃ t, t ∈ threats_field v ∧ P t.
Proof.
  intros Hv Hp. rewrite (threat_list_field _ Hv), existsb_exists.
  split; intros (t & Hin & Ht); exists t; (split; [by apply list_elem_of_In | by apply Hp]).
Qed.

Lemma wild_row_cve v base r :
  wild_row v base = Ok r → field_of "CVE" r = Some (cve_field v).
Proof.
  unfold wild_row. intros H. bind_inv H. bind_inv H. inversion H; subst.
  destruct v as [| | | | | |kvs]; try discriminate. simpl in *.
  inversion Ha. unfold cve_field. simpl. by destruct (dict_lookup "CVE" kvs).
Qed.

Lemma optional_row_in {A} (b : bool) (r x : A) : x ∈ (if b then [r] else []) → x = r.
Proof.
  destruct b; intros H.
  - by apply list_elem_of_In in H as [<-|[]].
  - by apply list_elem_of_In in H.
Qed.

(** ** Exploited-in-wild extractor *)

(** C4.  In the rows of a list, a vulnerability [v] stands for the rows
    [new] between those of the records before it and those of the records
    after it.  [new] is never more than one row, and it is one row exactly
    when some Exploit-type entry that [v] holds has a description that
    reads [a ++ "Exploited:Yes" ++ b] for some texts [a] and [b], byte for
    byte; how many entries do and where the first of them stands makes no
    difference.  The row carries the CVE id of [v]. *)
Theorem exploited_in_wild_one_row_per_match (vs1 : list json) (v : json) (vs2 : list json) :
  forallb wf_vuln (vs1 ++ v :: vs2) = true →
  ∃ rows1 new rows2,
    exploited_in_wild (JList vs1) = Ok rows1 ∧
    exploited_in_wild (JList vs2) = Ok rows2 ∧
    exploited_in_wild (JList (vs1 ++ v :: vs2)) = Ok (rows1 ++ new ++ rows2) ∧
    (length new ≤ 1)%nat ∧
    (length new = 1%nat ↔
       ∃ t, t ∈ threats_field v ∧ type_field_is 1 t = true ∧
            ∃ a b, description_text t = a +:+ "Exploited:Yes" +:+ b) ∧
    (∀ r, r ∈ new → field_of "CVE" r = Some (cve_field v)).
Proof.
  intros Hwf.
  destruct (exploited_in_wild_insert _ _ _ Hwf) as (rows1 & r & rows2 & H1 & H2 & Hr & H).
  destruct (forallb_split _ _ _ _ Hwf) as (_ & Hv & _).
  pose proof (exists_entry_field _ _ v Hv says_exploited_yes_field) as Hspec.
  exists rows1, (if existsb says_exploited_yes (threat_list v) then [r] else []), rows2.
  split; [done|]. split; [done|]. split; [done|].
  split; [apply length_optional_row|]. split.
  - rewrite <- Hspec. apply length_optional_row.
  - intros r' Hin. apply optional_row_in in Hin as ->. by eapply wild_row_cve.
Qed.

(** The record of the spec's example, alone in the list: its second
    Exploit entry says yes, and the rows are one row, for that record. *)
Lemma exploited_in_wild_one_row_per_match_witness :
  ∃ new,
    exploited_in_wild (JList [second_says_yes]) = Ok new ∧
    length new = 1%nat ∧
    ∀ r, r ∈ new → field_of "CVE" r = Some (JStr "CVE-2024-0003").
Proof.
  destruct (exploited_in_wild_one_row_per_match [] second_says_yes [] eq_refl)
    as (rows1 & new & rows2 & H1 & H2 & H3 & _ & Hiff & Hcve).
  exists new. injection H1 as <-. injection H2 as <-.
  rewrite app_nil_r in H3. split; [exact H3|]. split; [|exact Hcve].
  apply Hiff. exists (entry 1 "Exploited:Yes;Latest").
  split; [apply list_elem_of_In; simpl; auto|].
  split; [reflexivity|]. by exists EmptyString, ";Latest".
Defined.

Example second_entry_matches_one_row :
  exploited_in_wild (JList [second_says_yes])
  = Ok [JDict [("CVE", JStr "CVE-2024-0003"); ("Score", JFloat 7.5);
               ("Title", JStr "A flaw")]].
Proof. reflexivity. Qed.

Example two_matches_one_row :
  exploited_in_wild
    (JList [vuln "CVE-2024-0004" [] [entry 1 "Exploited:Yes"; entry 1 "Exploited:Yes"]])
  = Ok [JDict [("CVE", JStr "CVE-2024-0004"); ("Score", JInt 0);
               ("Title", JStr "A flaw")]].
Proof. reflexivity. Qed.

Example lowercase_yes_no_row :
  exploited_in_wild (JList [vuln "CVE-2024-0005" [] [entry 1 "Exploited:yes"]]) = Ok [].
Proof. reflexivity. Qed.

Example vulnerability_type_entry_no_row :
  exploited_in_wild (JList [vuln "CVE-2024-0006" [] [entry 0 "Exploited:Yes"]]) = Ok [].
Proof. reflexivity. Qed.

Lemma wild_row_score v base r :
  wild_row v base = Ok r → row_field "Score" r = Some base.
Proof.
  unfold wild_row. intros H. bind_inv H. bind_inv H. by inversion H.
Qed.

(** The two readings agree when the first set carries a base score, and
    when no set does. *)
Lemma head_base_score_found kvs b rest :
  dict_lookup "BaseScore" kvs = Some b →
  first_base_score_found (JDict kvs :: rest) = head_base_score (JDict kvs :: rest).
Proof. intros H. simpl. by rewrite H. Qed.

(** ** The Score column of the exploited-in-wild rows *)

(** C7, as stated, fails: the record [score_in_second_set] emits a row,
    the first base score found in its score sets is 9.5, and the row's
    Score is 0, because only the first score set is read and that one has
    no base score. *)
Lemma exploited_in_wild_score_not_first_found :
  ¬ (∀ v r, wf_vuln v = true →
            exploited_in_wild (JList [v]) = Ok [r] →
            row_field "Score" r = Some (first_base_score_found (score_sets v))).
Proof.
  intros H.
  specialize (H score_in_second_set
                (JDict [("CVE", JStr "CVE-2024-0007"); ("Score", JInt 0);
                        ("Title", JStr "A flaw")]) eq_refl eq_refl).
  vm_compute in H. discriminate H.
Qed.

(** C7, amended.  When a vulnerability emits a row, the row's Score is the
    base score of the first score set of the sequence, and 0 when that
    first set carries none or when the sequence is empty. *)
Theorem exploited_in_wild_score_first_set (vs1 : list json) (v : json) (vs2 : list json) :
  forallb wf_vuln (vs1 ++ v :: vs2) = true →
  ∃ rows1 r rows2,
    exploited_in_wild (JList vs1) = Ok rows1 ∧
    exploited_in_wild (JList vs2) = Ok rows2 ∧
    exploited_in_wild (JList (vs1 ++ v :: vs2))
    = Ok (rows1 ++ (if existsb says_exploited_yes (threat_list v) then [r] else []) ++ rows2) ∧
    row_field "Score" r
    = Some (match score_sets v with
            | [] => JInt 0
            | s :: _ => match row_field "BaseScore" s with
                        | Some b => b
                        | None => JInt 0
                        end
            end).
Proof.
  intros Hwf.
  destruct (exploited_in_wild_insert _ _ _ Hwf) as (rows1 & r & rows2 & H1 & H2 & Hr & H).
  exists rows1, r, rows2. repeat split; try done.
  rewrite (wild_row_score _ _ _ Hr). f_equal.
  destruct (forallb_split _ _ _ _ Hwf) as (_ & Hv & _).
  destruct (wf_vuln_fields v Hv) as (_ & _ & Hs & _).
  destruct Hs as [|s ss Hs _]; [done|].
  destruct s as [| | | | | |kvs]; try discriminate. simpl.
  by destruct (dict_lookup "BaseScore" kvs).
Qed.

Lemma exploited_in_wild_score_first_set_witness :
  ∃ rows1 r rows2,
    exploited_in_wild (JList []) = Ok rows1 ∧
    exploited_in_wild (JList []) = Ok rows2 ∧
    exploited_in_wild (JList ([] ++ score_in_second_set :: []))
    = Ok (rows1 ++ (if existsb says_exploited_yes (threat_list score_in_second_set)
                    then [r] else []) ++ rows2) ∧
    row_field "Score" r
    = Some (match score_sets score_in_second_set with
            | [] => JInt 0
            | s :: _ => match row_field "BaseScore" s with
                        | Some b => b
                        | None => JInt 0
                        end
            end).
Proof.
  apply (exploited_in_wild_score_first_set [] score_in_second_set []).
  reflexivity.
Defined.

Example score_in_second_set_row :
  exploited_in_wild (JList [score_in_second_set])
  = Ok [JDict [("CVE", JStr "CVE-2024-0007"); ("Score", JInt 0);
               ("Title", JStr "A flaw")]].
Proof. reflexivity. Qed.

(** ** Likely-exploited extractor *)

Section Likely.

Variable lower : string → string.

Lemma likely_body_appends : appends (likely_body lower).
Proof.
  intros rows v. unfold likely_body.
  destruct (threats_of v) as [ts|]; simpl; [|done].
  apply scan_threats_rows.
Qed.

Lemma likely_exploited_list vs :
  likely_exploited lower (JList vs) = foldM (likely_body lower) [] vs.
Proof. reflexivity. Qed.

Lemma is_more_likely_wf t :
  wf_threat t = true → is_more_likely lower t = Ok (says_more_likely lower t).
Proof.
  intros Hwf. destruct (entry_type_wf THREAT_TYPE_EXPLOIT t Hwf) as (ty & Hty & Hn).
  destruct (wf_threat_dict t Hwf) as (_ & Hd & _).
  unfold is_more_likely, says_more_likely. rewrite Hty, Hn, Hd. simpl.
  by destruct (py_eq_int ty THREAT_TYPE_EXPLOIT).
Qed.

Lemma likely_row_wf v : wf_vuln v = true → is_ok (likely_row v) = true.
Proof.
  intros Hwf. destruct (wf_vuln_fields v Hwf) as ([kvs ->] & _ & _ & Ht).
  unfold likely_row. simpl. apply is_ok_true in Ht as [ttl ->]. done.
Qed.

Lemma likely_body_wf v :
  wf_vuln v = true →
  ∃ r, likely_row v = Ok r ∧
       likely_body lower [] v
       = Ok (if existsb (says_more_likely lower) (threat_list v) then [r] else []).
Proof.
  intros Hwf. destruct (wf_vuln_threats v Hwf) as [Hts Hall].
  pose proof (likely_row_wf v Hwf) as Hr.
  apply is_ok_true in Hr as [r Hr]. exists r. split; [done|].
  unfold likely_body. rewrite Hts. simpl.
  rewrite (scan_threats_decided _ _ (says_more_likely lower)).
  - rewrite Hr. simpl. by destruct (existsb _ _).
  - eapply Forall_impl; [exact Hall|]. intros t Ht. by apply is_more_likely_wf.
Qed.

Lemma likely_exploited_total vs :
  forallb wf_vuln vs = true → is_ok (likely_exploited lower (JList vs)) = true.
Proof.
  intros Hwf. apply forallb_Forall in Hwf. rewrite likely_exploited_list.
  apply rows_loop_total; [apply likely_body_appends|].
  eapply Forall_impl; [exact Hwf|]. intros v Hv. simpl in Hv.
  destruct (likely_body_wf v Hv) as (r & _ & ->). done.
Qed.

Lemma likely_exploited_insert vs1 v vs2 :
  forallb wf_vuln (vs1 ++ v :: vs2) = true →
  ∃ rows1 r rows2,
    likely_exploited lower (JList vs1) = Ok rows1 ∧
    likely_exploited lower (JList vs2) = Ok rows2 ∧
    likely_row v = Ok r ∧
    likely_exploited lower (JList (vs1 ++ v :: vs2))
    = Ok (rows1 ++ (if existsb (says_more_likely lower) (threat_list v) then [r] else [])
            ++ rows2).
Proof.
  intros Hwf. destruct (forallb_split _ _ _ _ Hwf) as (H1 & Hv & H2).
  pose proof (likely_exploited_total vs1 H1) as Hr1.
  pose proof (likely_exploited_total vs2 H2) as Hr2.
  apply is_ok_true in Hr1 as [rows1 Hr1]. apply is_ok_true in Hr2 as [rows2 Hr2].
  destruct (likely_body_wf v Hv) as (r & Hr & Hnew).
  exists rows1, r, rows2. repeat split; try done.
  rewrite likely_exploited_list in *.
  rewrite (rows_loop_insert _ _ _ _ likely_body_appends), Hr1, Hnew, Hr2. done.
Qed.

(** The entries after the first hit are never read, whatever they are. *)
Lemma likely_exploited_break fields pre t post :
  Forall (λ x, is_more_likely lower x = Ok false) pre →
  is_more_likely lower t = Ok true →
  likely_exploited lower (JList [JDict (("Threats", JList (pre ++ t :: post)) :: fields)])
  = likely_exploited lower (JList [JDict (("Threats", JList (pre ++ [t])) :: fields)]).
Proof.
  intros Hpre Ht. rewrite !likely_exploited_list. simpl. unfold likely_body.
  change (threats_of (JDict (("Threats", JList (pre ++ t :: post)) :: fields)))
    with (@Ok (list json) (pre ++ t :: post)).
  change (threats_of (JDict (("Threats", JList (pre ++ [t])) :: fields)))
    with (@Ok (list json) (pre ++ [t])).
  simpl. rewrite !scan_threats_break by done. reflexivity.
Qed.

Hypothesis lower_ascii : ∀ s, is_ascii s = true → lower s = ascii_lower s.

Lemma says_more_likely_field t :
  says_more_likely lower t = true ↔
  type_field_is 1 t = true ∧
  ∃ a b, lower (description_text t) = a +:+ "exploitation more likely" +:+ b.
Proof.
  unfold says_more_likely.
  by rewrite entry_type_is_field, entry_description_field, andb_true_iff, str_contains_spec.
Qed.

Lemma likely_row_cve v r :
  likely_row v = Ok r → field_of "CVE" r = Some (cve_field v).
Proof.
  unfold likely_row. intros H. bind_inv H. bind_inv H. inversion H; subst.
  destruct v as [| | | | | |kvs]; try discriminate. simpl in *.
  inversion Ha. unfold cve_field. simpl. by destruct (dict_lookup "CVE" kvs).
Qed.

(** C5.  In the rows of a list, a vulnerability [v] stands for the rows
    [new] between those of the records before and after it: never more
    than one row, and one row exactly when some Exploit-type entry that
    [v] holds has a description whose lower-cased text contains
    "exploitation more likely"; the all-caps text "EXPLOITATION MORE
    LIKELY" is such a description.  The row carries the CVE id of [v].
    The scan stops at the first entry that matches: the entries after it,
    whatever they are, do not change the result. *)
Theorem likely_exploited_one_row_per_match (vs1 : list json) (v : json) (vs2 : list json) :
  forallb wf_vuln (vs1 ++ v :: vs2) = true →
  (∃ rows1 new rows2,
     likely_exploited lower (JList vs1) = Ok rows1 ∧
     likely_exploited lower (JList vs2) = Ok rows2 ∧
     likely_exploited lower (JList (vs1 ++ v :: vs2)) = Ok (rows1 ++ new ++ rows2) ∧
     (length new ≤ 1)%nat ∧
     (length new = 1%nat ↔
        ∃ t, t ∈ threats_field v ∧ type_field_is 1 t = true ∧
             ∃ a b, lower (description_text t) = a +:+ "exploitation more likely" +:+ b) ∧
     ((∃ t, t ∈ threats_field v ∧ type_field_is 1 t = true ∧
            description_text t = "EXPLOITATION MORE LIKELY") →
      length new = 1%nat) ∧
     (∀ r, r ∈ new → field_of "CVE" r = Some (cve_field v))) ∧
  (∀ fields pre t post,
     Forall (λ x, wf_threat x = true ∧
                  ¬ (type_field_is 1 x = true ∧
                     ∃ a b, lower (description_text x)
                            = a +:+ "exploitation more likely" +:+ b)) pre →
     wf_threat t = true →
     type_field_is 1 t = true →
     (∃ a b, lower (description_text t) = a +:+ "exploitation more likely" +:+ b) →
     likely_exploited lower
       (JList [JDict (("Threats", JList (pre ++ t :: post)) :: fields)])
     = likely_exploited lower
         (JList [JDict (("Threats", JList (pre ++ [t])) :: fields)])).
Proof.
  intros Hwf. split.
  - destruct (likely_exploited_insert _ _ _ Hwf) as (rows1 & r & rows2 & H1 & H2 & Hr & H).
    destruct (forallb_split _ _ _ _ Hwf) as (_ & Hv & _).
    pose proof (exists_entry_field _ _ v Hv says_more_likely_field) as Hspec.
    exists rows1, (if existsb (says_more_likely lower) (threat_list v) then [r] else []), rows2.
    split; [done|]. split; [done|]. split; [done|].
    split; [apply length_optional_row|]. split; [|split].
    + rewrite <- Hspec. apply length_optional_row.
    + intros (t & Hin & Hty & Hd). apply (length_optional_row _ r). apply Hspec.
      exists t. split; [done|]. split; [done|].
      rewrite Hd, lower_ascii by reflexivity.
      by exists EmptyString, EmptyString.
    + intros r' Hin. apply optional_row_in in Hin as ->. by eapply likely_row_cve.
  - intros fields pre t post Hpre Hwt Hty Hd. apply likely_exploited_break.
    + eapply Forall_impl; [exact Hpre|]. intros x [Hwx Hno]. simpl.
      rewrite (is_more_likely_wf x Hwx). f_equal.
      destruct (says_more_likely lower x) eqn:Hs; [|done].
      by apply says_more_likely_field in Hs.
    + rewrite (is_more_likely_wf t Hwt). f_equal. by apply says_more_likely_field.
Qed.

End Likely.

(** With ASCII lower-casing: the record whose second Exploit entry is the
    all-caps phrase gives one row, its own; and a record whose first
    Exploit entry matches gives the same rows whether or not two values
    that are no entries at all follow it. *)
Lemma likely_exploited_one_row_per_match_witness :
  (∃ new,
     likely_exploited ascii_lower (JList [all_caps_likely]) = Ok new ∧
     length new = 1%nat ∧
     ∀ r, r ∈ new → field_of "CVE" r = Some (JStr "CVE-2024-0008")) ∧
  likely_exploited ascii_lower
    (JList [JDict [("Threats", JList [entry 0 "exploitation more likely";
                                      entry 1 "Exploitation More Likely";
                                      JNull; JInt 3])]])
  = likely_exploited ascii_lower
      (JList [JDict [("Threats", JList [entry 0 "exploitation more likely";
                                        entry 1 "Exploitation More Likely"])]]).
Proof.
  destruct (likely_exploited_one_row_per_match ascii_lower (λ s _, eq_refl)
              [] all_caps_likely [] eq_refl) as [Hrows Hstop].
  split.
  - destruct Hrows as (rows1 & new & rows2 & H1 & H2 & H3 & _ & _ & Hcaps & Hcve).
    exists new. injection H1 as <-. injection H2 as <-.
    rewrite app_nil_r in H3. split; [exact H3|]. split; [|exact Hcve].
    apply Hcaps. exists (entry 1 "EXPLOITATION MORE LIKELY").
    split; [apply list_elem_of_In; simpl; auto|]. split; reflexivity.
  - apply (Hstop [] [entry 0 "exploitation more likely"]
             (entry 1 "Exploitation More Likely") [JNull; JInt 3]).
    + constructor; [|constructor]. split; [reflexivity|].
      intros [Hty _]. discriminate Hty.
    + reflexivity.
    + reflexivity.
    + by exists EmptyString, EmptyString.
Defined.

Example all_caps_one_row :
  likely_exploited ascii_lower (JList [all_caps_likely])
  = Ok [JDict [("CVE", JStr "CVE-2024-0008"); ("Title", JStr "A flaw")]].
Proof. reflexivity. Qed.

Example entries_after_the_hit_unread :
  likely_exploited ascii_lower
    (JList [JDict [("Threats", JList [entry 1 "Exploitation More Likely"; JNull; JInt 3])]])
  = Ok [JDict [("CVE", JNull); ("Title", JNull)]].
Proof. reflexivity. Qed.

Example entry_before_the_hit_is_read :
  likely_exploited ascii_lower
    (JList [JDict [("Threats", JList [JNull; entry 1 "Exploitation More Likely"])]])
  = Raise AttributeError.
Proof. reflexivity. Qed.

(** ** High-severity filter *)

Section HighSeverity.

Variable float_of_str : string → option float.
Variable threshold : float.

Lemma high_body_appends : appends (high_body float_of_str threshold).
Proof.
  intros rows v. unfold high_body.
  destruct (float_base_score float_of_str v) as [bs|]; simpl; [|done].
  destruct (PrimFloat.leb threshold bs); simpl; [|by rewrite app_nil_r].
  by destruct (high_row v bs).
Qed.

Lemma high_severity_list vs :
  high_severity float_of_str threshold (JList vs) = foldM (high_body float_of_str threshold) [] vs.
Proof. reflexivity. Qed.

Lemma py_float_wf kvs :
  wf_score_set (JDict kvs) = true →
  is_ok (py_float float_of_str (default (JInt 0) (dict_lookup "BaseScore" kvs))) = true.
Proof.
  unfold wf_score_set.
  destruct (dict_lookup "BaseScore" kvs) as [[]|]; try discriminate; simpl; done.
Qed.

(** The score of a schema-conformant record: 0.0 without score sets, else
    [float] of the first set's base score, 0 standing in for a missing
    one. *)
Lemma float_base_score_wf v :
  wf_vuln v = true →
  ∃ s, float_base_score float_of_str v = Ok s ∧
       match score_sets v with
       | [] => s = 0%float
       | s0 :: _ =>
           py_float float_of_str
             (match row_field "BaseScore" s0 with Some b => b | None => JInt 0 end) = Ok s
       end.
Proof.
  intros Hwf. destruct (wf_vuln_fields v Hwf) as ([kvs ->] & Hb & Hs & _).
  revert Hb Hs. unfold first_base_score, float_base_score, score_sets. simpl.
  destruct (py_iter (default (JList []) (dict_lookup "CVSSScoreSets" kvs))) as [sets|];
    simpl; intros Hb Hs; [|discriminate].
  destruct Hs as [|s0 ss Hs0 _]; [by exists 0%float|].
  destruct s0 as [| | | | | |skvs]; try discriminate. simpl.
  pose proof (py_float_wf skvs Hs0) as Hf. apply is_ok_true in Hf as [s Hf].
  exists s. split; [done|]. revert Hf. by destruct (dict_lookup "BaseScore" skvs).
Qed.

Lemma high_row_wf v bs :
  wf_vuln v = true →
  ∃ r, high_row v bs = Ok r ∧ row_field "Score" r = Some (JFloat bs).
Proof.
  intros Hwf. destruct (wf_vuln_fields v Hwf) as ([kvs ->] & _ & _ & Ht).
  unfold high_row. simpl. apply is_ok_true in Ht as [ttl ->]. simpl. eauto.
Qed.

Lemma high_body_wf v :
  wf_vuln v = true →
  ∃ s r, float_base_score float_of_str v = Ok s ∧ high_row v s = Ok r ∧
         high_body float_of_str threshold [] v = Ok (if PrimFloat.leb threshold s then [r] else []).
Proof.
  intros Hwf. destruct (float_base_score_wf v Hwf) as (s & Hs & _).
  destruct (high_row_wf v s Hwf) as (r & Hr & _).
  exists s, r. repeat split; try done.
  unfold high_body. rewrite Hs. simpl. destruct (PrimFloat.leb threshold s); [|done].
  by rewrite Hr.
Qed.

Lemma high_severity_total vs :
  forallb wf_vuln vs = true →
  is_ok (high_severity float_of_str threshold (JList vs)) = true.
Proof.
  intros Hwf. apply forallb_Forall in Hwf. rewrite high_severity_list.
  apply rows_loop_total; [apply high_body_appends|].
  eapply Forall_impl; [exact Hwf|]. intros v Hv. simpl in Hv.
  destruct (high_body_wf v Hv) as (s & r & _ & _ & ->). done.
Qed.

(** C6, amended.  In the rows of a list, a vulnerability [v] stands
    between the rows of the records before it and those of the records
    after it, so rows keep the order of the list.  Its score [s] is 0.0
    when it has no score sets and otherwise [float] of the base score of
    the first score set, 0 when that set carries none; its row, which
    carries [s], is in the output exactly when [threshold <= s]; with the
    default threshold 8.0 a record without score sets is left out. *)
Theorem high_severity_threshold (vs1 : list json) (v : json) (vs2 : list json) :
  forallb wf_vuln (vs1 ++ v :: vs2) = true →
  ∃ rows1 s r rows2,
    high_severity float_of_str threshold (JList vs1) = Ok rows1 ∧
    high_severity float_of_str threshold (JList vs2) = Ok rows2 ∧
    high_severity float_of_str threshold (JList (vs1 ++ v :: vs2))
    = Ok (rows1 ++ (if PrimFloat.leb threshold s then [r] else []) ++ rows2) ∧
    row_field "Score" r = Some (JFloat s) ∧
    match score_sets v with
    | [] => s = 0%float
    | s0 :: _ =>
        py_float float_of_str
          (match row_field "BaseScore" s0 with Some b => b | None => JInt 0 end) = Ok s
    end ∧
    default_threshold = 8%float ∧
    (threshold = default_threshold → score_sets v = [] →
     high_severity float_of_str threshold (JList (vs1 ++ v :: vs2)) = Ok (rows1 ++ rows2)).
Proof.
  intros Hwf. destruct (forallb_split _ _ _ _ Hwf) as (H1 & Hv & H2).
  pose proof (high_severity_total vs1 H1) as Hr1.
  pose proof (high_severity_total vs2 H2) as Hr2.
  apply is_ok_true in Hr1 as [rows1 Hr1]. apply is_ok_true in Hr2 as [rows2 Hr2].
  destruct (float_base_score_wf v Hv) as (s & Hs & Hscore).
  destruct (high_row_wf v s Hv) as (r & Hr & Hfield).
  assert (Hall : high_severity float_of_str threshold (JList (vs1 ++ v :: vs2))
            = Ok (rows1 ++ (if PrimFloat.leb threshold s then [r] else []) ++ rows2)).
  { rewrite high_severity_list in *.
    rewrite (rows_loop_insert _ _ _ _ high_body_appends), Hr1, Hr2. simpl.
    unfold high_body. rewrite Hs. simpl.
    destruct (PrimFloat.leb threshold s); simpl; [by rewrite Hr | done]. }
  exists rows1, s, r, rows2. repeat split; try done.
  intros Hth Hnone. rewrite Hall. rewrite Hnone in Hscore. subst s threshold.
  reflexivity.
Qed.

End HighSeverity.

Lemma high_severity_threshold_witness :
  ∃ rows1 s r rows2,
    high_severity (λ _, None) 8%float (JList [no_score_sets]) = Ok rows1 ∧
    high_severity (λ _, None) 8%float (JList []) = Ok rows2 ∧
    high_severity (λ _, None) 8%float (JList ([no_score_sets] ++ scored_high :: []))
    = Ok (rows1 ++ (if PrimFloat.leb 8%float s then [r] else []) ++ rows2) ∧
    row_field "Score" r = Some (JFloat s) ∧
    match score_sets scored_high with
    | [] => s = 0%float
    | s0 :: _ =>
        py_float (λ _, None)
          (match row_field "BaseScore" s0 with Some b => b | None => JInt 0 end) = Ok s
    end ∧
    default_threshold = 8%float ∧
    (8%float = default_threshold → score_sets scored_high = [] →
     high_severity (λ _, None) 8%float (JList ([no_score_sets] ++ scored_high :: []))
     = Ok (rows1 ++ rows2)).
Proof.
  apply (high_severity_threshold (λ _, None) 8%float [no_score_sets] scored_high []).
  reflexivity.
Defined.

(** C6, as stated, fails: the first base score in the score sets of
    [score_in_second_set] is 9.5, which is not below the default threshold,
    and the filter leaves the record out, because it reads the first score
    set only and takes 0 for the base score that set lacks. *)
Lemma high_severity_score_not_first_found :
  ¬ (∀ v rows s,
       wf_vuln v = true →
       high_severity (λ _, None) default_threshold (JList [v]) = Ok rows →
       py_float (λ _, None) (first_base_score_found (score_sets v)) = Ok s →
       (rows ≠ [] ↔ PrimFloat.leb default_threshold s = true)).
Proof.
  intros H.
  destruct (H score_in_second_set [] 9.5%float eq_refl eq_refl eq_refl) as [_ Hin].
  by apply Hin.
Qed.

Example score_in_second_set_left_out :
  high_severity (λ _, None) default_threshold (JList [score_in_second_set]) = Ok [].
Proof. reflexivity. Qed.

Example no_score_sets_left_out :
  high_severity (λ _, None) default_threshold (JList [no_score_sets; scored_high])
  = Ok [JDict [("CVE", JStr "CVE-2024-0009"); ("Score", JFloat 8.5);
               ("Title", JStr "A flaw")]].
Proof. reflexivity. Qed.

Example score_at_threshold_kept :
  high_severity (λ _, None) default_threshold
    (JList [vuln "CVE-2024-0011" [JDict [("BaseScore", JInt 8)]] []])
  = Ok [JDict [("CVE", JStr "CVE-2024-0011"); ("Score", JFloat 8);
               ("Title", JStr "A flaw")]].
Proof. reflexivity. Qed.

(** ** The bulletin model and the report *)

Lemma wf_document_fields kvs :
  wf_document (JDict kvs) = true →
  (∃ ttl, (let* dt := py_get (JDict kvs) "DocumentTitle" (JDict []) in
           py_get dt "Value" (JStr "[no title]")) = Ok ttl) ∧
  ∃ vs, py_get (JDict kvs) "Vulnerability" (JList []) = Ok (JList vs) ∧
        forallb wf_vuln vs = true.
Proof.
  unfold wf_document. simpl. intros H. apply andb_true_iff in H as [Ht Hv]. split.
  - destruct (dict_lookup "DocumentTitle" kvs) as [[]|]; try discriminate; simpl; eauto.
  - destruct (dict_lookup "Vulnerability" kvs) as [[| | | | |vs|]|]; try discriminate; simpl.
    + by exists vs.
    + by exists [].
Qed.

Lemma init_wf ym resp kvs :
  status_code resp = 200 → json_body resp = Ok (JDict kvs) →
  wf_document (JDict kvs) = true →
  ∃ ttl vs,
    MSRCStats_init ym resp
    = Ok {| year_month := ym; data := JDict kvs; title := ttl; vulns := JList vs |} ∧
    (let* dt := py_get (JDict kvs) "DocumentTitle" (JDict []) in
     py_get dt "Value" (JStr "[no title]")) = Ok ttl ∧
    py_get (JDict kvs) "Vulnerability" (JList []) = Ok (JList vs) ∧
    forallb wf_vuln vs = true.
Proof.
  intros Hst Hbody Hwf.
  destruct (wf_document_fields kvs Hwf) as ([ttl Httl] & vs & Hvs & Hall).
  exists ttl, vs. repeat split; try done.
  unfold MSRCStats_init, fetch_json. rewrite Hst, Hbody. simpl.
  simpl in Httl, Hvs.
  destruct (dict_lookup "DocumentTitle" kvs) as [dt|]; simpl in *.
  - destruct dt; try discriminate. simpl in *. inversion Httl; subst.
    inversion Hvs as [Hv]. by rewrite Hv.
  - inversion Httl; subst. inversion Hvs as [Hv]. by rewrite Hv.
Qed.

Lemma init_year_month ym resp stats :
  MSRCStats_init ym resp = Ok stats → year_month stats = ym.
Proof.
  unfold MSRCStats_init. intros H. do 4 bind_inv H. by inversion H.
Qed.

Section MainReport.

Variable float_of_str : string → option float.
Variable lower : string → string.
Variable lib : excel_library.

(** [main] returns exactly when the model is built, the four passes
    return and the library raises nothing: not on opening the writer, not
    on one of the five sheets, not on closing.  What it returns is then
    the file name and these five sheets. *)
Lemma main_ok_spec ym resp file sheets :
  main float_of_str lower lib ym resp = Ok (file, sheets) ↔
  ∃ stats total counts wild high likely,
    MSRCStats_init ym resp = Ok stats ∧
    py_len (vulns stats) = Ok total ∧
    classification_counts (vulns stats) = Ok counts ∧
    exploited_in_wild (vulns stats) = Ok wild ∧
    high_severity float_of_str 8%float (vulns stats) = Ok high ∧
    likely_exploited lower (vulns stats) = Ok likely ∧
    file = report_file ym ∧
    sheets =
      [ {| sheet_name := "Summary"; with_index := false;
           content := SummaryFrame (title stats) ym total |};
        {| sheet_name := "By Classification"; with_index := true;
           content := CountsFrame counts |};
        {| sheet_name := "Exploited in Wild"; with_index := false;
           content := RowsFrame wild |};
        {| sheet_name := "High Severity (≥8.0)"; with_index := false;
           content := RowsFrame high |};
        {| sheet_name := "Likely Exploited"; with_index := false;
           content := RowsFrame likely |} ] ∧
    open_raises lib file = None ∧
    Forall (λ sh, to_excel_raises lib sh = None) sheets ∧
    close_raises lib file sheets = None.
Proof.
  unfold main. split.
  - intros H. do 6 bind_inv H.
    pose proof (init_year_month _ _ _ Ha) as Hym. rewrite Hym in H.
    fold (report_file ym) in H.
    destruct (open_raises lib (report_file ym)) eqn:Hopen; [discriminate|].
    unfold and_then, to_excel in H.
    repeat match type of H with
    | context [to_excel_raises lib ?sh] =>
        destruct (to_excel_raises lib sh) eqn:?; cbn [fst snd app] in H
    end;
    try (destruct (close_raises lib _ _); discriminate).
    destruct (close_raises lib _ _) eqn:Hclose; [discriminate|].
    inversion H; subst. exists a, a0, a1, a2, a3, a4.
    repeat (split; [done|]). split; [|done]. repeat constructor; done.
  - intros (stats & total & counts & wild & high & likely &
            Hi & Ht & Hc & Hw & Hh & Hl & -> & -> & Hopen & Hall & Hclose).
    rewrite Hi. cbn [bind]. rewrite Ht. cbn [bind]. rewrite Hc. cbn [bind].
    rewrite Hw. cbn [bind]. rewrite Hh. cbn [bind]. rewrite Hl. cbn [bind].
    rewrite (init_year_month _ _ _ Hi). fold (report_file ym). rewrite Hopen.
    rewrite !Forall_cons in Hall. destruct Hall as (E1 & E2 & E3 & E4 & E5 & _).
    unfold and_then, to_excel.
    rewrite E1. cbn [fst snd app]. rewrite E2. cbn [fst snd app].
    rewrite E3. cbn [fst snd app]. rewrite E4. cbn [fst snd app].
    rewrite E5. cbn [fst snd app]. by rewrite Hclose.
Qed.

(** Whenever [main] writes a workbook, these are its sheets. *)
Lemma main_sheet_names ym resp file sheets :
  main float_of_str lower lib ym resp = Ok (file, sheets) →
  file = "MSRC_" +:+ ym +:+ ".xlsx" ∧
  map sheet_name sheets
  = [ "Summary"; "By Classification"; "Exploited in Wild";
      "High Severity (≥8.0)"; "Likely Exploited" ].
Proof.
  intros H. apply main_ok_spec in H
    as (stats & total & counts & wild & high & likely & _ & _ & _ & _ & _ & _ & -> & -> & _).
  done.
Qed.

(** C8, amended.  When the model is built and the four passes return --
    as they do on every 200 response whose body follows the schema (C9) --
    and the spreadsheet library raises nothing on opening the writer, on the
    five sheets and on closing it, [main] writes [MSRC_<period>.xlsx] with
    exactly five sheets, named Summary, By Classification, Exploited in
    Wild, High Severity (≥8.0) and Likely Exploited, in that order. *)
Theorem main_writes_five_sheets (ym : string) (resp : response) (stats : MSRCStats)
    (total : Z) (counts : list (string * Z)) (wild high likely : list json) :
  MSRCStats_init ym resp = Ok stats →
  py_len (vulns stats) = Ok total →
  classification_counts (vulns stats) = Ok counts →
  exploited_in_wild (vulns stats) = Ok wild →
  high_severity float_of_str 8%float (vulns stats) = Ok high →
  likely_exploited lower (vulns stats) = Ok likely →
  let sheets :=
    [ {| sheet_name := "Summary"; with_index := false;
         content := SummaryFrame (title stats) ym total |};
      {| sheet_name := "By Classification"; with_index := true;
         content := CountsFrame counts |};
      {| sheet_name := "Exploited in Wild"; with_index := false;
         content := RowsFrame wild |};
      {| sheet_name := "High Severity (≥8.0)"; with_index := false;
         content := RowsFrame high |};
      {| sheet_name := "Likely Exploited"; with_index := false;
         content := RowsFrame likely |} ] in
  open_raises lib ("MSRC_" +:+ ym +:+ ".xlsx") = None →
  Forall (λ sh, to_excel_raises lib sh = None) sheets →
  close_raises lib ("MSRC_" +:+ ym +:+ ".xlsx") sheets = None →
  main float_of_str lower lib ym resp = Ok ("MSRC_" +:+ ym +:+ ".xlsx", sheets) ∧
  length sheets = 5%nat ∧
  map sheet_name sheets
  = [ "Summary"; "By Classification"; "Exploited in Wild";
      "High Severity (≥8.0)"; "Likely Exploited" ].
Proof.
  intros Hi Ht Hc Hw Hh Hl sheets Hopen Hall Hclose.
  split; [|done]. apply main_ok_spec.
  exists stats, total, counts, wild, high, likely. repeat (split; [done|]). done.
Qed.

(** C9.  Absent fields are replaced by defaults and nothing raises.  For a
    200 response whose body follows the schema, the model is built, with
    title "[no title]" when the document has no title (or a title without
    a value) and an empty vulnerability list when it has none, and each
    of the four aggregators returns on that list.  A record lacking its
    threats has no entries, one lacking its score sets has score 0 (0.0
    for the filter), one lacking its title or its CVE id gets [None] in
    that column. *)
Theorem missing_fields_default (threshold : float) (ym : string) (resp : response)
    (kvs : list (string * json)) :
  status_code resp = 200 →
  json_body resp = Ok (JDict kvs) →
  wf_document (JDict kvs) = true →
  ∃ stats,
    MSRCStats_init ym resp = Ok stats ∧
    (dict_lookup "DocumentTitle" kvs = None → title stats = JStr "[no title]") ∧
    (∀ dt, dict_lookup "DocumentTitle" kvs = Some (JDict dt) →
           dict_lookup "Value" dt = None → title stats = JStr "[no title]") ∧
    (dict_lookup "Vulnerability" kvs = None → vulns stats = JList []) ∧
    is_ok (classification_counts (vulns stats)) = true ∧
    is_ok (exploited_in_wild (vulns stats)) = true ∧
    is_ok (high_severity float_of_str threshold (vulns stats)) = true ∧
    is_ok (likely_exploited lower (vulns stats)) = true ∧
    ∀ fields,
      (dict_lookup "Threats" fields = None → threats_of (JDict fields) = Ok []) ∧
      (dict_lookup "CVSSScoreSets" fields = None →
         first_base_score (JDict fields) = Ok (JInt 0) ∧
         float_base_score float_of_str (JDict fields) = Ok 0%float) ∧
      (dict_lookup "Title" fields = None → vuln_title (JDict fields) = Ok JNull) ∧
      (dict_lookup "CVE" fields = None → py_get (JDict fields) "CVE" JNull = Ok JNull).
Proof.
  intros Hst Hbody Hwf.
  destruct (init_wf ym resp kvs Hst Hbody Hwf) as (ttl & vs & Hinit & Httl & Hvs & Hall).
  eexists. split; [exact Hinit|]. cbn [title vulns].
  simpl in Httl, Hvs.
  split; [intros Hnone; rewrite Hnone in Httl; simpl in Httl; by inversion Httl|].
  split.
  { intros dt Hdt Hnone. rewrite Hdt in Httl. simpl in Httl.
    rewrite Hnone in Httl. by inversion Httl. }
  split; [intros Hnone; rewrite Hnone in Hvs; simpl in Hvs; by inversion Hvs|].
  split; [by rewrite (classification_counts_wf vs Hall)|].
  split; [by apply exploited_in_wild_total|].
  split; [by apply high_severity_total|].
  split; [by apply likely_exploited_total|].
  intros fields. split; [|split; [|split]]; intros Hnone.
  - unfold threats_of. simpl. by rewrite Hnone.
  - unfold first_base_score, float_base_score. simpl. by rewrite Hnone.
  - unfold vuln_title. simpl. by rewrite Hnone.
  - simpl. by rewrite Hnone.
Qed.

End MainReport.

(** C8, as stated, fails: the fourth sheet is "High Severity (≥8.0)", not
    "High Severity". *)
Lemma main_sheet_names_not_as_listed :
  ¬ (∀ ym resp file sheets,
       main (λ _, None) ascii_lower refusing_control_characters ym resp = Ok (file, sheets) →
       map sheet_name sheets
       = [ "Summary"; "By Classification"; "Exploited in Wild";
           "High Severity"; "Likely Exploited" ]).
Proof.
  intros H.
  specialize (H "2024-Jan" (ok_response (JDict titled_bulletin))
                "MSRC_2024-Jan.xlsx" titled_bulletin_sheets eq_refl).
  discriminate H.
Qed.

(** The report on [titled_bulletin], with a library that refuses control
    characters and finds none. *)
Lemma main_writes_five_sheets_witness :
  main (λ _, None) ascii_lower refusing_control_characters "2024-Jan"
    (ok_response (JDict titled_bulletin))
  = Ok ("MSRC_2024-Jan.xlsx", titled_bulletin_sheets) ∧
  length titled_bulletin_sheets = 5%nat ∧
  map sheet_name titled_bulletin_sheets
  = [ "Summary"; "By Classification"; "Exploited in Wild";
      "High Severity (≥8.0)"; "Likely Exploited" ].
Proof.
  apply (main_writes_five_sheets (λ _, None) ascii_lower refusing_control_characters
           "2024-Jan" (ok_response (JDict titled_bulletin))
           {| year_month := "2024-Jan"; data := JDict titled_bulletin;
              title := JStr "January 2024 Security Updates";
              vulns := JList [two_spoofing; second_says_yes; scored_high; all_caps_likely] |}
           4
           [("Elevation of Privilege", 0); ("Security Feature Bypass", 0);
            ("Remote Code Execution", 0); ("Information Disclosure", 0);
            ("Denial of Service", 0); ("Spoofing", 1); ("Edge - Chromium", 0)]
           [JDict [("CVE", JStr "CVE-2024-0003"); ("Score", JFloat 7.5);
                   ("Title", JStr "A flaw")]]
           [JDict [("CVE", JStr "CVE-2024-0009"); ("Score", JFloat 8.5);
                   ("Title", JStr "A flaw")]]
           [JDict [("CVE", JStr "CVE-2024-0008"); ("Title", JStr "A flaw")]]);
    try reflexivity.
  repeat constructor.
Defined.

(** The schema says nothing about the characters of a text: a bulletin
    whose title is a control character follows it, and this library, as
    openpyxl, refuses the Summary sheet. *)
Example control_character_title_refused :
  wf_document (JDict control_character_title) = true ∧
  main (λ _, None) ascii_lower refusing_control_characters "2024-Jan"
    (ok_response (JDict control_character_title))
  = Raise IllegalCharacterError.
Proof. split; reflexivity. Qed.

Lemma missing_fields_default_witness :
  ∃ stats,
    MSRCStats_init "2024-Jan" (ok_response (JDict untitled_bulletin)) = Ok stats ∧
    (dict_lookup "DocumentTitle" untitled_bulletin = None → title stats = JStr "[no title]") ∧
    (∀ dt, dict_lookup "DocumentTitle" untitled_bulletin = Some (JDict dt) →
           dict_lookup "Value" dt = None → title stats = JStr "[no title]") ∧
    (dict_lookup "Vulnerability" untitled_bulletin = None → vulns stats = JList []) ∧
    is_ok (classification_counts (vulns stats)) = true ∧
    is_ok (exploited_in_wild (vulns stats)) = true ∧
    is_ok (high_severity (λ _, None) 8%float (vulns stats)) = true ∧
    is_ok (likely_exploited ascii_lower (vulns stats)) = true ∧
    ∀ fields,
      (dict_lookup "Threats" fields = None → threats_of (JDict fields) = Ok []) ∧
      (dict_lookup "CVSSScoreSets" fields = None →
         first_base_score (JDict fields) = Ok (JInt 0) ∧
         float_base_score (λ _, None) (JDict fields) = Ok 0%float) ∧
      (dict_lookup "Title" fields = None → vuln_title (JDict fields) = Ok JNull) ∧
      (dict_lookup "CVE" fields = None → py_get (JDict fields) "CVE" JNull = Ok JNull).
Proof.
  apply (missing_fields_default (λ _, None) ascii_lower 8%float "2024-Jan"
           (ok_response (JDict untitled_bulletin)) untitled_bulletin);
    reflexivity.
Defined.

Example record_without_fields :
  exploited_in_wild (JList [JDict [("Threats", JList [JDict [("Type", JInt 1);
       ("Description", JDict [("Value", JStr "Exploited:Yes")])]])]])
  = Ok [JDict [("CVE", JNull); ("Score", JInt 0); ("Title", JNull)]].
Proof. reflexivity. Qed.

(** A field that is present and null is not absent: [get] hands the
    null back and the loop over it raises. *)
Example null_threats_raises :
  classification_counts (JList [JDict [("Threats", JNull)]]) = Raise TypeError.
Proof. reflexivity. Qed.

Example empty_document_model :
  MSRCStats_init "2024-Jan" (ok_response (JDict []))
  = Ok {| year_month := "2024-Jan"; data := JDict [];
          title := JStr "[no title]"; vulns := JList [] |}.
Proof. reflexivity. Qed.

Example failed_request_exits :
  MSRCStats_init "2024-Jan" {| status_code := 404; json_body := Ok (JDict []) |}
  = Raise SystemExit.
Proof. reflexivity. Qed.

(** * Further properties of the code *)

(** ** The classification counter on any input *)

(** The counter returns exactly when the inner loop returns on every
    record, and then each count is the number of records credited. *)
Lemma classification_counts_ok_iff vs out :
  classification_counts (JList vs) = Ok out ↔
  Forall (λ v, is_ok (vuln_seen initial_counts v) = true) vs ∧
  out = tab VULN_CLASSIFICATIONS
          (λ l, Z.of_nat (length (List.filter (credited l) vs))).
Proof.
  unfold classification_counts. simpl. rewrite initial_counts_tab. split.
  - intros H. pose proof (counts_loop_ok _ _ _ H) as Hok. split; [done|].
    rewrite (counts_loop _ _ Hok) in H. by inversion H.
  - intros [Hok ->]. by rewrite (counts_loop _ _ Hok).
Qed.

Lemma add_counts_tab ks f g :
  add_counts (tab ks f) (tab ks g) = tab ks (λ k, f k + g k).
Proof.
  unfold add_counts. induction ks as [|k ks IH]; [done|].
  rewrite !tab_cons. simpl. by rewrite IH.
Qed.

(** The counts of a concatenation are the sums of the counts of its
    parts, and the counter returns on it exactly when it returns on
    both. *)
Theorem classification_counts_concat (vs1 vs2 : list json) (out : list (string * Z)) :
  classification_counts (JList (vs1 ++ vs2)) = Ok out ↔
  ∃ o1 o2, classification_counts (JList vs1) = Ok o1 ∧
           classification_counts (JList vs2) = Ok o2 ∧
           out = add_counts o1 o2.
Proof.
  split.
  - intros H. apply classification_counts_ok_iff in H as [Hok ->].
    apply Forall_app in Hok as [H1 H2].
    do 2 eexists. split; [by apply classification_counts_ok_iff|].
    split; [by apply classification_counts_ok_iff|].
    rewrite add_counts_tab. apply tab_ext. intros l _.
    rewrite List.filter_app, length_app. lia.
  - intros (o1 & o2 & H1 & H2 & ->).
    apply classification_counts_ok_iff in H1 as [Hok1 ->].
    apply classification_counts_ok_iff in H2 as [Hok2 ->].
    apply classification_counts_ok_iff. split; [by apply Forall_app|].
    rewrite add_counts_tab. apply tab_ext. intros l _.
    rewrite List.filter_app, length_app. lia.
Qed.

Lemma filter_length_perm {A} (p : A → bool) (l l' : list A) :
  l ≡ₚ l' → length (List.filter p l) = length (List.filter p l').
Proof.
  induction 1 as [|x l l' _ IH|x y l|l l' l'' _ IH1 _ IH2]; simpl.
  - done.
  - destruct (p x); simpl; by rewrite IH.
  - by destruct (p x), (p y).
  - by rewrite IH1.
Qed.

(** The order of the records plays no part in the counts. *)
Theorem classification_counts_permutation (vs vs' : list json) (out : list (string * Z)) :
  vs ≡ₚ vs' →
  classification_counts (JList vs) = Ok out →
  classification_counts (JList vs') = Ok out.
Proof.
  intros Hp H. apply classification_counts_ok_iff in H as [Hok ->].
  apply classification_counts_ok_iff. split.
  - by rewrite <- Hp.
  - apply tab_ext. intros l _. by rewrite (filter_length_perm _ _ _ Hp).
Qed.

Lemma classification_counts_permutation_witness :
  classification_counts (JList [edge_vuln ["11655"]; two_spoofing])
  = Ok [("Elevation of Privilege", 0); ("Security Feature Bypass", 0);
        ("Remote Code Execution", 0); ("Information Disclosure", 0);
        ("Denial of Service", 0); ("Spoofing", 1); ("Edge - Chromium", 1)].
Proof.
  apply (classification_counts_permutation [two_spoofing; edge_vuln ["11655"]]).
  - apply perm_swap.
  - by vm_compute.
Defined.

Lemma single_vuln_seen v e :
  classification_counts (JList [v]) = Raise e → vuln_seen initial_counts v = Raise e.
Proof.
  unfold classification_counts. cbn [py_iter bind foldM]. intros H.
  destruct (vuln_seen initial_counts v) as [seen|e'] eqn:Hs.
  - rewrite initial_counts_tab in H. by rewrite (count_vuln_ok _ _ _ Hs) in H.
  - unfold count_vuln in H. rewrite Hs in H. cbn [bind] in H. congruence.
Qed.

(** The counter gives no partial result: the first record on which it
    fails decides the exception, whatever follows. *)
Theorem classification_counts_first_failure (pre : list json) (v : json) (post : list json)
    (o : list (string * Z)) (e : exn) :
  classification_counts (JList pre) = Ok o →
  classification_counts (JList [v]) = Raise e →
  classification_counts (JList (pre ++ v :: post)) = Raise e.
Proof.
  intros Hpre Hv. apply single_vuln_seen in Hv.
  apply classification_counts_ok_iff in Hpre as [Hok _].
  unfold classification_counts. simpl. rewrite initial_counts_tab, foldM_app.
  rewrite (counts_loop _ _ Hok). simpl. unfold count_vuln.
  rewrite (vuln_seen_tab _ _ (λ _, 0)), <- initial_counts_tab, Hv. done.
Qed.

Lemma classification_counts_first_failure_witness :
  classification_counts
    (JList ([two_spoofing] ++ JDict [("Threats", JNull)] :: [JInt 3; two_spoofing]))
  = Raise TypeError.
Proof.
  apply (classification_counts_first_failure [two_spoofing] (JDict [("Threats", JNull)])
           [JInt 3; two_spoofing]
           [("Elevation of Privilege", 0); ("Security Feature Bypass", 0);
            ("Remote Code Execution", 0); ("Information Disclosure", 0);
            ("Denial of Service", 0); ("Spoofing", 1); ("Edge - Chromium", 0)]).
  - by vm_compute.
  - by vm_compute.
Defined.

Lemma foldM_ok_each {S A} (body : S → A → result S) s l s' :
  foldM body s l = Ok s' → Forall (λ a, ∃ s1, is_ok (body s1 a) = true) l.
Proof.
  revert s. induction l as [|a l IH]; intros s H; [constructor|].
  simpl in H. bind_inv H. constructor; [|by eapply IH].
  exists s. by rewrite Ha.
Qed.

Lemma seen_step_ok c t s1 :
  is_ok (let* o := threat_label c t in Ok (seen_add s1 o)) = true →
  ∀ s, is_ok (let* o := threat_label c t in Ok (seen_add s o)) = true.
Proof. destruct (threat_label c t); simpl; done. Qed.

Lemma threats_of_with_threats ts fields : threats_of (with_threats ts fields) = Ok ts.
Proof. reflexivity. Qed.

(** The inner loop of the counter does not depend on the order of the
    entries. *)
Lemma vuln_seen_perm c ts ts' fields s :
  ts ≡ₚ ts' →
  vuln_seen c (with_threats ts fields) = Ok s →
  vuln_seen c (with_threats ts' fields) = Ok s.
Proof.
  unfold vuln_seen. rewrite !threats_of_with_threats. cbn [bind]. intros Hp H.
  pose proof (foldM_ok_each _ _ _ _ H) as Hok. rewrite Hp in Hok.
  assert (Htot : is_ok (foldM (λ seen t, let* o := threat_label c t in Ok (seen_add seen o))
                          ∅ ts') = true).
  { apply foldM_total. eapply Forall_impl; [exact Hok|].
    intros t [s1 Hs1]. by apply (seen_step_ok c t s1). }
  apply is_ok_true in Htot as [s' Hs']. rewrite Hs'. f_equal.
  apply set_eq. intros l.
  rewrite (seen_loop _ _ _ _ Hs' l), (seen_loop _ _ _ _ H l).
  split; (intros [?|(t & Ht & Hl)]; [by left|right; exists t; split; [|done]]).
  - by rewrite Hp.
  - by rewrite <- Hp.
Qed.

Lemma credited_perm l ts ts' fields :
  ts ≡ₚ ts' →
  is_ok (vuln_seen initial_counts (with_threats ts fields)) = true →
  is_ok (vuln_seen initial_counts (with_threats ts' fields)) = true ∧
  credited l (with_threats ts' fields) = credited l (with_threats ts fields).
Proof.
  intros Hp Hok. apply is_ok_true in Hok as [s Hs].
  pose proof (vuln_seen_perm _ _ _ _ _ Hp Hs) as Hs'.
  unfold credited. by rewrite Hs, Hs'.
Qed.

(** The order of the threat entries inside a record plays no part in the
    counts: when the counter returns, it returns the same for the entries
    in any other order.  (The two extractors leave their loop at the first
    hit, and read the entries before it only.) *)
Theorem classification_counts_threat_order (vs1 vs2 : list json) (ts ts' : list json)
    (fields : list (string * json)) (out : list (string * Z)) :
  ts ≡ₚ ts' →
  classification_counts (JList (vs1 ++ with_threats ts fields :: vs2)) = Ok out →
  classification_counts (JList (vs1 ++ with_threats ts' fields :: vs2)) = Ok out.
Proof.
  intros Hp H. apply classification_counts_ok_iff in H as [Hok ->].
  apply Forall_app in Hok as [H1 H2]. apply Forall_cons in H2 as [Hv H2].
  apply classification_counts_ok_iff. split.
  - apply Forall_app. split; [done|]. apply Forall_cons. split; [|done].
    by apply (credited_perm "" _ _ _ Hp).
  - apply tab_ext. intros l _. rewrite !filter_insert_length.
    by rewrite (proj2 (credited_perm l _ _ _ Hp Hv)).
Qed.

Lemma classification_counts_threat_order_witness :
  classification_counts
    (JList ([two_spoofing] ++
            with_threats [edge_entry ["11655"]; entry 0 "Spoofing"] [] :: []))
  = Ok [("Elevation of Privilege", 0); ("Security Feature Bypass", 0);
        ("Remote Code Execution", 0); ("Information Disclosure", 0);
        ("Denial of Service", 0); ("Spoofing", 2); ("Edge - Chromium", 1)].
Proof.
  apply (classification_counts_threat_order [two_spoofing] []
           [entry 0 "Spoofing"; edge_entry ["11655"]]).
  - apply perm_swap.
  - by vm_compute.
Defined.

(** An entry of the threats may raise where the extractor has already
    left its loop; moved in front of the hit, it is read. *)
Example extractor_reads_entries_in_order :
  exploited_in_wild (JList [with_threats [entry 1 "Exploited:Yes"; JNull] []])
  = Ok [JDict [("CVE", JNull); ("Score", JInt 0); ("Title", JNull)]] ∧
  exploited_in_wild (JList [with_threats [JNull; entry 1 "Exploited:Yes"] []])
  = Raise AttributeError.
Proof. split; reflexivity. Qed.

(** ** Entries of another type *)

Lemma foldM_skip {S A} (body : S → A → result S) s pre a post :
  (∀ s1, body s1 a = Ok s1) →
  foldM body s (pre ++ a :: post) = foldM body s (pre ++ post).
Proof.
  intros Ha. rewrite !foldM_app. destruct (foldM body s pre) as [s1|]; simpl; [|done].
  by rewrite Ha.
Qed.

Lemma foldM_replace {S A} (body : S → A → result S) s l1 a a' l2 :
  (∀ s1, body s1 a = body s1 a') →
  foldM body s (l1 ++ a :: l2) = foldM body s (l1 ++ a' :: l2).
Proof.
  intros Ha. rewrite !foldM_app. destruct (foldM body s l1) as [s1|]; simpl; [|done].
  by rewrite Ha.
Qed.

Lemma scan_threats_skip cond mk rows pre t post :
  cond t = Ok false →
  scan_threats cond mk rows (pre ++ t :: post) = scan_threats cond mk rows (pre ++ post).
Proof.
  intros Ht. induction pre as [|x pre IH]; simpl.
  - by rewrite Ht.
  - destruct (cond x) as [[|]|]; simpl; done.
Qed.

Lemma other_type_skipped lower counts kvs :
  entry_type_is THREAT_TYPE_VULN (JDict kvs) = false →
  entry_type_is THREAT_TYPE_EXPLOIT (JDict kvs) = false →
  threat_label counts (JDict kvs) = Ok None ∧
  is_exploited_yes (JDict kvs) = Ok false ∧
  is_more_likely lower (JDict kvs) = Ok false.
Proof.
  unfold entry_type_is, threat_label, is_exploited_yes, is_more_likely. simpl.
  by intros -> ->.
Qed.

(** An entry whose type is neither Vulnerability nor Exploit -- a
    severity entry, an entry without a type, an entry whose type is a
    string -- is passed over by all three passes over the threats without
    a look at its other fields: taking it out of a record changes no
    result, not even a failure. *)
Theorem other_type_entries_ignored (lower : string → string) (vs1 vs2 pre post : list json)
    (kvs fields : list (string * json)) :
  entry_type_is THREAT_TYPE_VULN (JDict kvs) = false →
  entry_type_is THREAT_TYPE_EXPLOIT (JDict kvs) = false →
  classification_counts (JList (vs1 ++ with_threats (pre ++ JDict kvs :: post) fields :: vs2))
  = classification_counts (JList (vs1 ++ with_threats (pre ++ post) fields :: vs2)) ∧
  exploited_in_wild (JList (vs1 ++ with_threats (pre ++ JDict kvs :: post) fields :: vs2))
  = exploited_in_wild (JList (vs1 ++ with_threats (pre ++ post) fields :: vs2)) ∧
  likely_exploited lower (JList (vs1 ++ with_threats (pre ++ JDict kvs :: post) fields :: vs2))
  = likely_exploited lower (JList (vs1 ++ with_threats (pre ++ post) fields :: vs2)).
Proof.
  intros H0 H1. destruct (other_type_skipped lower initial_counts kvs H0 H1) as (_ & Hw & Hl).
  split; [|split].
  - unfold classification_counts. cbn [py_iter bind]. apply foldM_replace.
    intros c. unfold count_vuln, vuln_seen. rewrite !threats_of_with_threats. cbn [bind].
    rewrite foldM_skip; [done|]. intros s.
    by rewrite (proj1 (other_type_skipped lower c kvs H0 H1)).
  - unfold exploited_in_wild. cbn [py_iter bind]. apply foldM_replace.
    intros rows. unfold wild_body. rewrite !threats_of_with_threats.
    change (first_base_score (with_threats (pre ++ JDict kvs :: post) fields))
      with (first_base_score (with_threats (pre ++ post) fields)).
    destruct (first_base_score _) as [base|]; cbn [bind]; [|done].
    by rewrite scan_threats_skip.
  - unfold likely_exploited. cbn [py_iter bind]. apply foldM_replace.
    intros rows. unfold likely_body. rewrite !threats_of_with_threats. cbn [bind].
    by rewrite scan_threats_skip.
Qed.

Lemma other_type_entries_ignored_witness :
  classification_counts
    (JList ([] ++ with_threats ([entry 0 "Spoofing"] ++
                 JDict [("Type", JInt 3); ("Description", JStr "Critical")] :: []) [] :: []))
  = classification_counts
      (JList ([] ++ with_threats ([entry 0 "Spoofing"] ++ []) [] :: [])) ∧
  exploited_in_wild
    (JList ([] ++ with_threats ([entry 0 "Spoofing"] ++
                 JDict [("Type", JInt 3); ("Description", JStr "Critical")] :: []) [] :: []))
  = exploited_in_wild
      (JList ([] ++ with_threats ([entry 0 "Spoofing"] ++ []) [] :: [])) ∧
  likely_exploited ascii_lower
    (JList ([] ++ with_threats ([entry 0 "Spoofing"] ++
                 JDict [("Type", JInt 3); ("Description", JStr "Critical")] :: []) [] :: []))
  = likely_exploited ascii_lower
      (JList ([] ++ with_threats ([entry 0 "Spoofing"] ++ []) [] :: [])).
Proof.
  apply (other_type_entries_ignored ascii_lower [] [] [entry 0 "Spoofing"] []
           [("Type", JInt 3); ("Description", JStr "Critical")] []);
    reflexivity.
Defined.

(** ** What one entry does to the counter *)


(** The ways one entry makes the counter fail, and no other: the entry
    is no dict; or it is of type Vulnerability and its Description is no
    dict, or its description is a list or a dict (which cannot be looked
    up in the counts), or its description is "Edge - Chromium" and its
    ProductID is null, a boolean or a number. *)
Theorem threat_label_raise_iff (t : json) (e : exn) :
  threat_label initial_counts t = Raise e ↔
  (is_dict t = false ∧ e = AttributeError) ∨
  (entry_type_is THREAT_TYPE_VULN t = true ∧
   ((threat_description t = Raise AttributeError ∧ e = AttributeError) ∨
    (∃ x, threat_description t = Ok x ∧ unhashable x = true ∧ e = TypeError) ∨
    (threat_description t = Ok (JStr "Edge - Chromium") ∧
     ∃ pids, py_get t "ProductID" (JList []) = Ok pids ∧
             not_container pids = true ∧ e = TypeError))).
Proof.
  destruct t as [| | | | | |kvs];
    try (cbn; split; [intros [= <-]; by left | intros [[_ ->]|[? _]]; done]).
  unfold threat_label, entry_type_is. cbn [py_get bind is_dict].
  set (ty := default JNull (dict_lookup "Type" kvs)).
  destruct (py_eq_int ty THREAT_TYPE_VULN); cbn [negb].
  2:{ split; [discriminate | intros [[? _]|[? _]]; discriminate]. }
  unfold threat_description. cbn [py_get bind].
  set (D := default (JDict []) (dict_lookup "Description" kvs)).
  destruct D as [| | | | | |d]; cbn [py_get bind];
    try (split; [intros [= <-]; right; split; [done|]; by left
                | intros [[? _]|[_ [[_ ->]|[(x & ? & _)|[? _]]]]]; done]).
  set (val := default (JStr "") (dict_lookup "Value" d)).
  set (pids := default (JList []) (dict_lookup "ProductID" kvs)).
  assert (Hno : ∀ P : Prop, (false = true ∧ P) ↔ False) by (intros; split; [intros [? _]; done | done]).
  destruct val as [| | | |s| |]; cbn [py_eq_str py_in_counts unhashable].
  1-4: split; [discriminate|];
       intros [[? _]|[_ [[? _]|[(x & [= <-] & ? & _)|[? _]]]]]; discriminate.
  2-3: split; [intros [= <-]; right; split; [done|]; right; left; eauto
              | intros [[? _]|[_ [[? _]|[(x & _ & _ & ->)|[? _]]]]]; done].
  rewrite string_eqb_eq. destruct (decide (s = "Edge - Chromium")) as [->|Hs].
  - rewrite bool_decide_eq_true_2 by done.
    destruct pids as [| | | |p|p|p]; cbn [py_in_str bind not_container].
    1-4: split; [intros [= <-]; right; split; [done|]; right; right; split; [done|]; eauto
                | intros [[? _]|[_ [[? _]|[(x & [= <-] & ? & _)|(_ & p & _ & _ & ->)]]]]; done].
    all: split; [discriminate|];
         intros [[? _]|[_ [[? _]|[(x & [= <-] & ? & _)|(_ & p' & [= <-] & ? & _)]]]]; discriminate.
  - rewrite bool_decide_eq_false_2 by done. split; [discriminate|].
    intros [[? _]|[_ [[? _]|[(x & [= <-] & ? & _)|([= ?] & _)]]]]; done.
Qed.

(** ** The three row passes on any input *)

Lemma rows_loop_concat {A B} (body : list B → A → result (list B)) l1 l2 :
  appends body →
  foldM body [] (l1 ++ l2)
  = let* r1 := foldM body [] l1 in
    let* r2 := foldM body [] l2 in
    Ok (r1 ++ r2).
Proof.
  intros Hb. rewrite foldM_app. destruct (foldM body [] l1) as [r1|]; simpl; [|done].
  apply (rows_loop_from body r1 l2 Hb).
Qed.

(** The rows of a concatenation are the rows of the first part followed
    by the rows of the second; a failure in the first part comes first.
    This holds for every input, well-formed or not. *)
Theorem row_passes_concat (float_of_str : string → option float) (lower : string → string)
    (threshold : float) (vs1 vs2 : list json) :
  exploited_in_wild (JList (vs1 ++ vs2))
  = (let* r1 := exploited_in_wild (JList vs1) in
     let* r2 := exploited_in_wild (JList vs2) in
     Ok (r1 ++ r2)) ∧
  high_severity float_of_str threshold (JList (vs1 ++ vs2))
  = (let* r1 := high_severity float_of_str threshold (JList vs1) in
     let* r2 := high_severity float_of_str threshold (JList vs2) in
     Ok (r1 ++ r2)) ∧
  likely_exploited lower (JList (vs1 ++ vs2))
  = (let* r1 := likely_exploited lower (JList vs1) in
     let* r2 := likely_exploited lower (JList vs2) in
     Ok (r1 ++ r2)).
Proof.
  split; [|split].
  - rewrite !exploited_in_wild_list. apply rows_loop_concat, wild_body_appends.
  - rewrite !high_severity_list. apply rows_loop_concat, high_body_appends.
  - rewrite !likely_exploited_list. apply rows_loop_concat, likely_body_appends.
Qed.

Lemma scan_threats_ok_inv cond mk ts new :
  scan_threats cond mk [] ts = Ok new →
  new = [] ∨ ∃ r t, new = [r] ∧ mk = Ok r ∧ t ∈ ts ∧ cond t = Ok true.
Proof.
  induction ts as [|t ts IH]; simpl; intros H.
  - left. by inversion H.
  - bind_inv H. destruct a.
    + bind_inv H. inversion H; subst. right. exists a, t.
      split; [done|]. split; [done|]. split; [left | done].
    + destruct (IH H) as [?|(r & t' & ? & ? & ? & ?)]; [by left|].
      right. exists r, t'. split; [done|]. split; [done|]. split; [by right | done].
Qed.

(** Rows come from a sub-list of the records, in order, one row each. *)
Lemma rows_loop_sublist {A B} (body : list B → A → result (list B)) (R : A → B → Prop) :
  appends body →
  (∀ a new, body [] a = Ok new → new = [] ∨ ∃ r, new = [r] ∧ R a r) →
  ∀ l rows, foldM body [] l = Ok rows →
            ∃ kept, kept `sublist_of` l ∧ Forall2 R kept rows.
Proof.
  intros Hb Hone. induction l as [|a l IH]; intros rows H.
  - inversion H. exists []. split; constructor.
  - change (a :: l) with ([a] ++ l) in H. rewrite (rows_loop_concat _ _ _ Hb) in H.
    bind_inv H. bind_inv H. inversion H; subst. clear H.
    simpl in Ha. bind_inv Ha. inversion Ha; subst. clear Ha.
    destruct (IH _ Ha0) as (kept & Hsub & Hall).
    destruct (Hone _ _ Ha1) as [->|(r & -> & Hr)].
    + exists kept. split; [by constructor | done].
    + exists (a :: kept). split; [by constructor | by constructor].
Qed.

Lemma sublist_rows_length {A B} (R : A → B → Prop) kept (l : list A) rows :
  kept `sublist_of` l → Forall2 R kept rows → (length rows ≤ length l)%nat.
Proof.
  intros Hsub Hall. apply sublist_length in Hsub.
  apply Forall2_length in Hall. lia.
Qed.

Lemma wild_body_one v new :
  wild_body [] v = Ok new →
  new = [] ∨ ∃ r, new = [r] ∧
    ∃ cve base ttl,
      py_get v "CVE" JNull = Ok cve ∧ first_base_score v = Ok base ∧
      vuln_title v = Ok ttl ∧
      r = JDict [("CVE", cve); ("Score", base); ("Title", ttl)] ∧
      ∃ t, t ∈ threat_list v ∧ is_exploited_yes t = Ok true.
Proof.
  intros Hv. unfold wild_body in Hv. bind_inv Hv. bind_inv Hv.
  apply scan_threats_ok_inv in Hv as [?|(r & t & -> & Hr & Ht & Hc)]; [by left|].
  right. exists r. split; [done|]. unfold wild_row in Hr. bind_inv Hr. bind_inv Hr.
  inversion Hr; subst. exists a1, a, a2. repeat split; try done.
  exists t. unfold threat_list. by rewrite Ha0.
Qed.

Lemma exploited_in_wild_rows_sound_len vs rows :
  exploited_in_wild (JList vs) = Ok rows → (length rows ≤ length vs)%nat.
Proof.
  rewrite exploited_in_wild_list. intros H.
  eapply rows_loop_sublist in H as (kept & Hsub & Hall);
    [|apply wild_body_appends|apply wild_body_one].
  by eapply sublist_rows_length.
Qed.

Lemma likely_body_one lower v new :
  likely_body lower [] v = Ok new →
  new = [] ∨ ∃ r, new = [r] ∧
    ∃ cve ttl,
      py_get v "CVE" JNull = Ok cve ∧ vuln_title v = Ok ttl ∧
      r = JDict [("CVE", cve); ("Title", ttl)] ∧
      ∃ t, t ∈ threat_list v ∧ is_more_likely lower t = Ok true.
Proof.
  intros Hv. unfold likely_body in Hv. bind_inv Hv.
  apply scan_threats_ok_inv in Hv as [?|(r & t & -> & Hr & Ht & Hc)]; [by left|].
  right. exists r. split; [done|]. unfold likely_row in Hr. bind_inv Hr. bind_inv Hr.
  inversion Hr; subst. exists a0, a1. repeat split; try done.
  exists t. unfold threat_list. by rewrite Ha.
Qed.

Lemma likely_exploited_rows_sound_len lower vs rows :
  likely_exploited lower (JList vs) = Ok rows → (length rows ≤ length vs)%nat.
Proof.
  rewrite likely_exploited_list. intros H.
  eapply rows_loop_sublist in H as (kept & Hsub & Hall);
    [|apply likely_body_appends|apply likely_body_one].
  by eapply sublist_rows_length.
Qed.

(** Every row of the exploited-in-wild frame is the row of a record of
    the input: it holds, under CVE, Score and Title and in that order, the
    record's CVE field, the base score of its first score set and its
    title, and the record has an Exploit entry that says yes.  Rows follow
    the order of the records and no record gives two. *)
Theorem exploited_in_wild_rows_sound (vs rows : list json) :
  exploited_in_wild (JList vs) = Ok rows →
  (length rows ≤ length vs)%nat ∧
  ∃ kept, kept `sublist_of` vs ∧
    Forall2 (λ v r,
      ∃ cve base ttl,
        py_get v "CVE" JNull = Ok cve ∧ first_base_score v = Ok base ∧
        vuln_title v = Ok ttl ∧
        r = JDict [("CVE", cve); ("Score", base); ("Title", ttl)] ∧
        ∃ t, t ∈ threat_list v ∧ is_exploited_yes t = Ok true) kept rows.
Proof.
  rewrite exploited_in_wild_list. intros H.
  eapply rows_loop_sublist in H as (kept & Hsub & Hall); [|apply wild_body_appends|].
  - split; [by eapply sublist_rows_length|]. by exists kept.
  - intros v new Hv. unfold wild_body in Hv. bind_inv Hv. bind_inv Hv.
    apply scan_threats_ok_inv in Hv as [?|(r & t & -> & Hr & Ht & Hc)]; [by left|].
    right. exists r. split; [done|]. unfold wild_row in Hr. bind_inv Hr. bind_inv Hr.
    inversion Hr; subst. exists a1, a, a2. repeat split; try done.
    exists t. unfold threat_list. by rewrite Ha0.
Qed.

Lemma exploited_in_wild_rows_sound_witness :
  (length [JDict [("CVE", JStr "CVE-2024-0003"); ("Score", JFloat 7.5);
                  ("Title", JStr "A flaw")]]
   ≤ length [scored_high; second_says_yes])%nat ∧
  ∃ kept, kept `sublist_of` [scored_high; second_says_yes] ∧
    Forall2 (λ v r,
      ∃ cve base ttl,
        py_get v "CVE" JNull = Ok cve ∧ first_base_score v = Ok base ∧
        vuln_title v = Ok ttl ∧
        r = JDict [("CVE", cve); ("Score", base); ("Title", ttl)] ∧
        ∃ t, t ∈ threat_list v ∧ is_exploited_yes t = Ok true) kept
      [JDict [("CVE", JStr "CVE-2024-0003"); ("Score", JFloat 7.5);
              ("Title", JStr "A flaw")]].
Proof.
  apply (exploited_in_wild_rows_sound [scored_high; second_says_yes]).
  reflexivity.
Defined.

Lemma high_severity_rows_sound_aux float_of_str threshold vs rows :
  high_severity float_of_str threshold (JList vs) = Ok rows →
  ∃ kept, kept `sublist_of` vs ∧
    Forall2 (λ v r,
      ∃ cve s ttl,
        py_get v "CVE" JNull = Ok cve ∧ float_base_score float_of_str v = Ok s ∧
        vuln_title v = Ok ttl ∧
        PrimFloat.leb threshold s = true ∧
        r = JDict [("CVE", cve); ("Score", JFloat s); ("Title", ttl)]) kept rows.
Proof.
  rewrite high_severity_list. intros H.
  eapply rows_loop_sublist in H as (kept & Hsub & Hall); [by exists kept|apply high_body_appends|].
  intros v new Hv. unfold high_body in Hv. bind_inv Hv.
  destruct (PrimFloat.leb threshold a) eqn:Hle; [|left; by inversion Hv].
  bind_inv Hv. inversion Hv; subst. right. exists a0. split; [done|].
  unfold high_row in Ha0. bind_inv Ha0. bind_inv Ha0. inversion Ha0; subst.
  exists a1, a, a2. done.
Qed.

(** Every row of the high-severity frame is the row of a record of the
    input whose score is at or above the threshold: the filter never lets
    a lower score, or a score that is not a number, through.  The Score
    column holds the score as a float. *)
Theorem high_severity_rows_sound (float_of_str : string → option float) (threshold : float)
    (vs rows : list json) :
  high_severity float_of_str threshold (JList vs) = Ok rows →
  (length rows ≤ length vs)%nat ∧
  ∃ kept, kept `sublist_of` vs ∧
    Forall2 (λ v r,
      ∃ cve s ttl,
        py_get v "CVE" JNull = Ok cve ∧ float_base_score float_of_str v = Ok s ∧
        vuln_title v = Ok ttl ∧
        PrimFloat.leb threshold s = true ∧
        r = JDict [("CVE", cve); ("Score", JFloat s); ("Title", ttl)]) kept rows.
Proof.
  intros H. destruct (high_severity_rows_sound_aux _ _ _ _ H) as (kept & Hsub & Hall).
  split; [by eapply sublist_rows_length|]. by exists kept.
Qed.

Lemma high_severity_rows_sound_witness :
  (length [JDict [("CVE", JStr "CVE-2024-0009"); ("Score", JFloat 8.5);
                  ("Title", JStr "A flaw")]]
   ≤ length [no_score_sets; scored_high])%nat ∧
  ∃ kept, kept `sublist_of` [no_score_sets; scored_high] ∧
    Forall2 (λ v r,
      ∃ cve s ttl,
        py_get v "CVE" JNull = Ok cve ∧ float_base_score (λ _, None) v = Ok s ∧
        vuln_title v = Ok ttl ∧
        PrimFloat.leb 8%float s = true ∧
        r = JDict [("CVE", cve); ("Score", JFloat s); ("Title", ttl)]) kept
      [JDict [("CVE", JStr "CVE-2024-0009"); ("Score", JFloat 8.5);
              ("Title", JStr "A flaw")]].
Proof.
  apply (high_severity_rows_sound (λ _, None) 8%float [no_score_sets; scored_high]).
  reflexivity.
Defined.

(** Every row of the likely-exploited frame is the row of a record of
    the input: it holds the record's CVE field and title, under CVE and
    Title, and no Score column; the record has an Exploit entry whose
    lower-cased description contains the phrase. *)
Theorem likely_exploited_rows_sound (lower : string → string) (vs rows : list json) :
  likely_exploited lower (JList vs) = Ok rows →
  (length rows ≤ length vs)%nat ∧
  ∃ kept, kept `sublist_of` vs ∧
    Forall2 (λ v r,
      ∃ cve ttl,
        py_get v "CVE" JNull = Ok cve ∧ vuln_title v = Ok ttl ∧
        r = JDict [("CVE", cve); ("Title", ttl)] ∧
        ∃ t, t ∈ threat_list v ∧ is_more_likely lower t = Ok true) kept rows.
Proof.
  rewrite likely_exploited_list. intros H.
  eapply rows_loop_sublist in H as (kept & Hsub & Hall); [|apply likely_body_appends|].
  - split; [by eapply sublist_rows_length|]. by exists kept.
  - intros v new Hv. unfold likely_body in Hv. bind_inv Hv.
    apply scan_threats_ok_inv in Hv as [?|(r & t & -> & Hr & Ht & Hc)]; [by left|].
    right. exists r. split; [done|]. unfold likely_row in Hr. bind_inv Hr. bind_inv Hr.
    inversion Hr; subst. exists a0, a1. repeat split; try done.
    exists t. unfold threat_list. by rewrite Ha.
Qed.

Lemma likely_exploited_rows_sound_witness :
  (length [JDict [("CVE", JStr "CVE-2024-0008"); ("Title", JStr "A flaw")]]
   ≤ length [all_caps_likely; scored_high])%nat ∧
  ∃ kept, kept `sublist_of` [all_caps_likely; scored_high] ∧
    Forall2 (λ v r,
      ∃ cve ttl,
        py_get v "CVE" JNull = Ok cve ∧ vuln_title v = Ok ttl ∧
        r = JDict [("CVE", cve); ("Title", ttl)] ∧
        ∃ t, t ∈ threat_list v ∧ is_more_likely ascii_lower t = Ok true) kept
      [JDict [("CVE", JStr "CVE-2024-0008"); ("Title", JStr "A flaw")]].
Proof.
  apply (likely_exploited_rows_sound ascii_lower [all_caps_likely; scored_high]).
  reflexivity.
Defined.

(** ** The fields each pass reads *)

Lemma py_get_same keys v v' k d :
  same_fields keys v v' → k ∈ keys → py_get v k d = py_get v' k d.
Proof.
  destruct v, v'; simpl; intros H Hk; try (by inversion H); try done.
  by rewrite (H k Hk).
Qed.

Lemma foldM_Forall2 {S A} (R : A → A → Prop) (body : S → A → result S) s l l' :
  (∀ s1 a a', R a a' → body s1 a = body s1 a') →
  Forall2 R l l' → foldM body s l = foldM body s l'.
Proof.
  intros Hb H. revert s. induction H as [|a a' l l' Ha _ IH]; intros s; simpl; [done|].
  rewrite (Hb s a a' Ha). destruct (body s a'); simpl; [apply IH | done].
Qed.

Ltac same_key H := apply (py_get_same _ _ _ _ _ H); repeat constructor.

(** Each pass reads a record through a few fields only: the counter
    through Threats; the high-severity filter through CVSSScoreSets, CVE
    and Title; the likely-exploited extractor through Threats, CVE and
    Title; the exploited-in-wild extractor through all four.  Records that
    agree on those fields give the same result, failures included, so a
    malformed score set cannot disturb the counts or the likely-exploited
    rows, and a malformed threat entry cannot disturb the filter. *)
Theorem passes_read_only (float_of_str : string → option float) (lower : string → string)
    (threshold : float) (vs vs' : list json) :
  (Forall2 (same_fields ["Threats"]) vs vs' →
   classification_counts (JList vs) = classification_counts (JList vs')) ∧
  (Forall2 (same_fields ["CVSSScoreSets"; "CVE"; "Title"]) vs vs' →
   high_severity float_of_str threshold (JList vs)
   = high_severity float_of_str threshold (JList vs')) ∧
  (Forall2 (same_fields ["Threats"; "CVE"; "Title"]) vs vs' →
   likely_exploited lower (JList vs) = likely_exploited lower (JList vs')) ∧
  (Forall2 (same_fields ["CVSSScoreSets"; "Threats"; "CVE"; "Title"]) vs vs' →
   exploited_in_wild (JList vs) = exploited_in_wild (JList vs')).
Proof.
  split; [|split; [|split]]; intros H.
  - unfold classification_counts. cbn [py_iter bind].
    eapply foldM_Forall2; [|exact H]. intros c v v' Hv.
    unfold count_vuln, vuln_seen, threats_of.
    assert (py_get v "Threats" (JList []) = py_get v' "Threats" (JList [])) as ->
      by same_key Hv.
    done.
  - rewrite !high_severity_list. eapply foldM_Forall2; [|exact H]. intros rows v v' Hv.
    unfold high_body, float_base_score, high_row, vuln_title.
    assert (py_get v "CVSSScoreSets" (JList []) = py_get v' "CVSSScoreSets" (JList [])) as ->
      by same_key Hv.
    assert (py_get v "CVE" JNull = py_get v' "CVE" JNull) as -> by same_key Hv.
    assert (py_get v "Title" (JDict []) = py_get v' "Title" (JDict [])) as ->
      by same_key Hv.
    done.
  - rewrite !likely_exploited_list. eapply foldM_Forall2; [|exact H]. intros rows v v' Hv.
    unfold likely_body, threats_of, likely_row, vuln_title.
    assert (py_get v "Threats" (JList []) = py_get v' "Threats" (JList [])) as ->
      by same_key Hv.
    assert (py_get v "CVE" JNull = py_get v' "CVE" JNull) as -> by same_key Hv.
    assert (py_get v "Title" (JDict []) = py_get v' "Title" (JDict [])) as ->
      by same_key Hv.
    done.
  - rewrite !exploited_in_wild_list. eapply foldM_Forall2; [|exact H]. intros rows v v' Hv.
    unfold wild_body, first_base_score, threats_of, wild_row, vuln_title.
    assert (py_get v "CVSSScoreSets" (JList []) = py_get v' "CVSSScoreSets" (JList [])) as ->
      by same_key Hv.
    assert (py_get v "Threats" (JList []) = py_get v' "Threats" (JList [])) as ->
      by same_key Hv.
    destruct (let* sets := py_get v' "CVSSScoreSets" (JList []) in _) as [base|];
      cbn [bind]; [|done].
    destruct (let* ts := py_get v' "Threats" (JList []) in _) as [ts|]; cbn [bind]; [|done].
    assert (py_get v "CVE" JNull = py_get v' "CVE" JNull) as -> by same_key Hv.
    assert (py_get v "Title" (JDict []) = py_get v' "Title" (JDict [])) as ->
      by same_key Hv.
    done.
Qed.

(** A record with a broken score set: the counter and the likely-exploited
    extractor return what they return without it, the filter and the
    exploited-in-wild extractor fail. *)
Example broken_score_set :
  let v := JDict [("CVSSScoreSets", JInt 7); ("Threats", JList [entry 0 "Spoofing"])] in
  classification_counts (JList [v])
  = classification_counts (JList [with_threats [entry 0 "Spoofing"] []]) ∧
  likely_exploited ascii_lower (JList [v]) = Ok [] ∧
  high_severity (λ _, None) default_threshold (JList [v]) = Raise TypeError ∧
  exploited_in_wild (JList [v]) = Raise TypeError.
Proof. repeat split; by vm_compute. Qed.

(** ** Scores that are not numbers *)

Lemma leb_nan_r x : PrimFloat.leb x nan = false.
Proof.
  rewrite leb_spec. change (Prim2SF nan) with S754_nan.
  unfold SFleb, SFcompare. by destruct (Prim2SF x) as [[]|[]| |[]].
Qed.

Lemma leb_nan_l y : PrimFloat.leb nan y = false.
Proof. rewrite leb_spec. reflexivity. Qed.

(** [nan >= threshold] and [bs >= nan] are both false: a record whose
    score is NaN (which [json] parses from the bare word) is in no row,
    and with a NaN threshold the filter keeps nothing. *)
Theorem high_severity_nan (float_of_str : string → option float) (threshold : float)
    (vs rows : list json) :
  high_severity float_of_str threshold (JList vs) = Ok rows →
  Forall (λ r, row_field "Score" r ≠ Some (JFloat nan)) rows ∧
  (threshold = nan → rows = []).
Proof.
  intros H. destruct (high_severity_rows_sound_aux float_of_str threshold vs rows H)
    as (kept & _ & Hall).
  split.
  - clear H. induction Hall as [|v r kept rows (cve & s & ttl & _ & _ & _ & Hle & ->) _ IH];
      constructor; [|done].
    simpl. intros [= ->]. by rewrite leb_nan_r in Hle.
  - intros ->. destruct Hall as [|v r kept rows (cve & s & ttl & _ & _ & _ & Hle & _) _]; [done|].
    by rewrite leb_nan_l in Hle.
Qed.

Lemma high_severity_nan_witness :
  Forall (λ r, row_field "Score" r ≠ Some (JFloat nan))
    [JDict [("CVE", JStr "CVE-2024-0009"); ("Score", JFloat 8.5); ("Title", JStr "A flaw")]] ∧
  (neg_infinity = nan →
   [JDict [("CVE", JStr "CVE-2024-0009"); ("Score", JFloat 8.5); ("Title", JStr "A flaw")]]
   = []).
Proof.
  apply (high_severity_nan (λ _, None) neg_infinity
           [vuln "CVE-2024-0012" [JDict [("BaseScore", JFloat nan)]] []; scored_high]).
  reflexivity.
Defined.

(** ** A title that is no dict *)

(** [v.get('Title', {}).get('Value')] is evaluated only when a row is
    built.  A record whose Title is a bare string, and which is otherwise
    well-formed, therefore passes through each row pass unnoticed as long
    as it gives no row, and raises AttributeError as soon as it would. *)
Theorem bare_title_raises_only_in_a_row (float_of_str : string → option float)
    (lower : string → string) (threshold : float) (s : string)
    (rest : list (string * json)) :
  wf_vuln (JDict (("Title", JDict []) :: rest)) = true →
  let v := JDict (("Title", JStr s) :: rest) in
  exploited_in_wild (JList [v])
  = (if existsb says_exploited_yes (threat_list v) then Raise AttributeError else Ok []) ∧
  likely_exploited lower (JList [v])
  = (if existsb (says_more_likely lower) (threat_list v) then Raise AttributeError else Ok []) ∧
  ∃ bs, float_base_score float_of_str v = Ok bs ∧
        high_severity float_of_str threshold (JList [v])
        = (if PrimFloat.leb threshold bs then Raise AttributeError else Ok []).
Proof.
  intros Hwf v.
  set (v0 := JDict (("Title", JDict []) :: rest)) in *.
  destruct (wf_vuln_threats v0 Hwf) as [Hts Hall].
  destruct (wf_vuln_fields v0 Hwf) as (_ & Hb & _ & _).
  destruct (float_base_score_wf float_of_str v0 Hwf) as (bs & Hbs & _).
  change (threats_of v0) with (threats_of v) in Hts.
  change (threat_list v0) with (threat_list v) in *.
  change (first_base_score v0) with (first_base_score v) in Hb.
  change (float_base_score float_of_str v0) with (float_base_score float_of_str v) in Hbs.
  split; [|split].
  - rewrite exploited_in_wild_list. cbn [foldM]. unfold wild_body.
    rewrite Hb, Hts. cbn [bind].
    rewrite (scan_threats_decided _ _ says_exploited_yes).
    + by destruct (existsb _ _).
    + eapply Forall_impl; [exact Hall|]. intros t Ht. by apply is_exploited_yes_wf.
  - rewrite likely_exploited_list. cbn [foldM]. unfold likely_body.
    rewrite Hts. cbn [bind].
    rewrite (scan_threats_decided _ _ (says_more_likely lower)).
    + by destruct (existsb _ _).
    + eapply Forall_impl; [exact Hall|]. intros t Ht. by apply is_more_likely_wf.
  - exists bs. split; [done|]. rewrite high_severity_list. cbn [foldM]. unfold high_body.
    rewrite Hbs. cbn [bind]. by destruct (PrimFloat.leb threshold bs).
Qed.

Lemma bare_title_raises_only_in_a_row_witness :
  let v := JDict (("Title", JStr "A flaw") ::
                  [("CVSSScoreSets", JList [JDict [("BaseScore", JFloat 8.5)]]);
                   ("Threats", JList [entry 1 "Exploited:No"])]) in
  exploited_in_wild (JList [v])
  = (if existsb says_exploited_yes (threat_list v) then Raise AttributeError else Ok []) ∧
  likely_exploited ascii_lower (JList [v])
  = (if existsb (says_more_likely ascii_lower) (threat_list v)
     then Raise AttributeError else Ok []) ∧
  ∃ bs, float_base_score (λ _, None) v = Ok bs ∧
        high_severity (λ _, None) 8%float (JList [v])
        = (if PrimFloat.leb 8%float bs then Raise AttributeError else Ok []).
Proof.
  apply (bare_title_raises_only_in_a_row (λ _, None) ascii_lower 8%float "A flaw"
           [("CVSSScoreSets", JList [JDict [("BaseScore", JFloat 8.5)]]);
            ("Threats", JList [entry 1 "Exploited:No"])]).
  reflexivity.
Defined.

(** ** A vulnerability list that is no list *)

(** [for v in self.vulns] when the Vulnerability field is no list: on
    null, a boolean or a number every pass raises TypeError; on an empty
    string or an empty dict every pass does what it does on the empty
    list; on any other string or dict the first item is a string, which
    has no [get], and every pass raises AttributeError. *)
Theorem vulnerability_field_not_a_list (float_of_str : string → option float)
    (lower : string → string) (threshold : float) (x : json) :
  match x with
  | JList _ => True
  | JNull | JBool _ | JInt _ | JFloat _ =>
      classification_counts x = Raise TypeError ∧
      exploited_in_wild x = Raise TypeError ∧
      high_severity float_of_str threshold x = Raise TypeError ∧
      likely_exploited lower x = Raise TypeError
  | JStr EmptyString | JDict [] =>
      classification_counts x = classification_counts (JList []) ∧
      exploited_in_wild x = Ok [] ∧
      high_severity float_of_str threshold x = Ok [] ∧
      likely_exploited lower x = Ok []
  | JStr _ | JDict _ =>
      classification_counts x = Raise AttributeError ∧
      exploited_in_wild x = Raise AttributeError ∧
      high_severity float_of_str threshold x = Raise AttributeError ∧
      likely_exploited lower x = Raise AttributeError
  end.
Proof.
  destruct x as [| | | |[|c s]|l|[|[k y] kvs]]; cbn; done.
Qed.

(** ** The bulletin model and the report, on any response *)

(** [__init__] returns exactly when the status is 200, the body parses to
    a dict and the dict's DocumentTitle, if it has one, is a dict.  The
    title is then the Value of the DocumentTitle, of whatever type, or
    "[no title]", and the vulnerabilities are the Vulnerability field as
    it stands, or the empty list: nothing else of the document is
    looked at. *)
Theorem init_ok_iff (ym : string) (resp : response) (stats : MSRCStats) :
  MSRCStats_init ym resp = Ok stats ↔
  status_code resp = 200 ∧
  ∃ kvs ttl,
    json_body resp = Ok (JDict kvs) ∧
    ((dict_lookup "DocumentTitle" kvs = None ∧ ttl = JStr "[no title]") ∨
     (∃ dt, dict_lookup "DocumentTitle" kvs = Some (JDict dt) ∧
            ttl = default (JStr "[no title]") (dict_lookup "Value" dt))) ∧
    stats = {| year_month := ym; data := JDict kvs; title := ttl;
               vulns := default (JList []) (dict_lookup "Vulnerability" kvs) |}.
Proof.
  unfold MSRCStats_init, fetch_json. split.
  - intros H. destruct (Z.eqb_spec (status_code resp) 200) as [Hst|]; [|discriminate].
    split; [done|]. cbn [negb] in H.
    destruct (json_body resp) as [d|]; [|discriminate]. cbn [bind] in H.
    destruct d as [| | | | | |kvs]; try discriminate. cbn [py_get bind] in H.
    destruct (dict_lookup "DocumentTitle" kvs) as [dt|] eqn:Hdt; cbn [default] in H.
    + destruct dt as [| | | | | |dt]; try discriminate. cbn [py_get bind] in H.
      inversion H. exists kvs, (default (JStr "[no title]") (dict_lookup "Value" dt)).
      split; [done|]. split; [right; eauto | done].
    + cbn [py_get bind dict_lookup default] in H. inversion H.
      exists kvs, (JStr "[no title]"). split; [done|]. split; [by left | done].
  - intros (Hst & kvs & ttl & Hbody & Httl & ->). rewrite Hst, Hbody. cbn.
    destruct Httl as [[-> ->]|(dt & -> & ->)]; done.
Qed.

Section MainOnAnyResponse.

Variable float_of_str : string → option float.
Variable lower : string → string.
Variable lib : excel_library.


(** Any status other than 200 -- 204, 301, 404, 500 -- ends the run with
    [sys.exit] before the body is parsed, the writer opened or any sheet
    written, whatever the spreadsheet library would do. *)
Theorem main_exits_unless_200 (ym : string) (resp : response) :
  status_code resp ≠ 200 →
  MSRCStats_init ym resp = Raise SystemExit ∧
  main float_of_str lower lib ym resp = Raise SystemExit.
Proof.
  intros Hst. assert (Hi : MSRCStats_init ym resp = Raise SystemExit).
  { unfold MSRCStats_init, fetch_json.
    by destruct (Z.eqb_spec (status_code resp) 200). }
  split; [done|]. unfold main. by rewrite Hi.
Qed.

End MainOnAnyResponse.

Lemma main_exits_unless_200_witness :
  MSRCStats_init "2024-Jan" {| status_code := 204; json_body := Raise ValueError |}
  = Raise SystemExit ∧
  main (λ _, None) ascii_lower refusing_control_characters "2024-Jan"
    {| status_code := 204; json_body := Raise ValueError |}
  = Raise SystemExit.
Proof.
  apply (main_exits_unless_200 (λ _, None) ascii_lower refusing_control_characters "2024-Jan"
           {| status_code := 204; json_body := Raise ValueError |}).
  discriminate.
Defined.

(** A library that raises on the third sheet, and one whose writer does
    not close: [main] raises what the library raised, and what the
    closing raises comes first. *)
Example third_sheet_refused :
  main (λ _, None) ascii_lower
    {| open_raises := λ _, None;
       to_excel_raises := λ sh,
         if String.eqb (sheet_name sh) "Exploited in Wild" then Some ValueError else None;
       close_raises := λ _ written,
         if Nat.eqb (length written) 2 then None else Some KeyError |}
    "2024-Jan" (ok_response (JDict titled_bulletin))
  = Raise ValueError.
Proof. reflexivity. Qed.

Example close_raises_first :
  main (λ _, None) ascii_lower
    {| open_raises := λ _, None;
       to_excel_raises := λ sh,
         if String.eqb (sheet_name sh) "Exploited in Wild" then Some ValueError else None;
       close_raises := λ _ _, Some TypeError |}
    "2024-Jan" (ok_response (JDict titled_bulletin))
  = Raise TypeError.
Proof. reflexivity. Qed.

(** ** Column widths *)

Lemma fold_max_spec (xs : list Z) (x : Z) :
  (x ≤ fold_left Z.max xs x)%Z ∧
  Forall (λ y, (y ≤ fold_left Z.max xs x)%Z) xs ∧
  (fold_left Z.max xs x = x ∨ fold_left Z.max xs x ∈ xs).
Proof.
  revert x. induction xs as [|y xs IH]; intros x; simpl.
  - split; [lia|]. split; [constructor | by left].
  - destruct (IH (Z.max x y)) as (H1 & H2 & H3). split; [lia|]. split.
    + constructor; [lia | done].
    + destruct H3 as [H3|H3]; [|right; by right].
      destruct (Z.max_spec x y) as [[_ Hm]|[_ Hm]]; rewrite Hm in H3 |- *.
      * right. rewrite H3. left.
      * by left.
Qed.

Section ColumnWidthProperties.

Variable cell : Type.
Variable text_len : cell → Z.

(** Each column of a sheet is made two characters wider than its longest
    cell text: every cell fits with two to spare and some cell has
    exactly two to spare.  A sheet gets one width per column, in order. *)
Theorem sheet_widths_fit (columns : list (list cell)) :
  Forall (λ col_cells, col_cells ≠ []) columns →
  ∃ widths,
    sheet_widths cell text_len columns = Ok widths ∧
    Forall2 (λ col_cells width,
               Forall (λ c, (text_len c + 2 ≤ width)%Z) col_cells ∧
               ∃ c, c ∈ col_cells ∧ width = (text_len c + 2)%Z) columns widths.
Proof.
  induction 1 as [|col columns Hcol _ (widths & Hw & Hall)].
  - exists []. split; [done | constructor].
  - destruct col as [|c0 col]; [done|].
    exists ((fold_left Z.max (map text_len col) (text_len c0) + 2)%Z :: widths).
    split; [cbn; by rewrite Hw|]. constructor; [|done].
    destruct (fold_max_spec (map text_len col) (text_len c0)) as (H1 & H2 & H3).
    split.
    + constructor; [lia|]. rewrite List.Forall_map in H2.
      eapply Forall_impl; [exact H2|]. simpl. intros; lia.
    + destruct H3 as [H3|H3].
      * exists c0. split; [left | by rewrite H3].
      * apply list_elem_of_In, in_map_iff in H3 as (c & Hc & Hin).
        exists c. split; [right; by apply list_elem_of_In | by rewrite Hc].
Qed.

End ColumnWidthProperties.

Lemma sheet_widths_fit_witness :
  ∃ widths,
    sheet_widths string (λ s, Z.of_nat (String.length s))
      [["CVE"; "CVE-2024-0001"]; ["Score"; "9.8"]] = Ok widths ∧
    Forall2 (λ col_cells width,
               Forall (λ c, (Z.of_nat (String.length c) + 2 ≤ width)%Z) col_cells ∧
               ∃ c, c ∈ col_cells ∧ width = (Z.of_nat (String.length c) + 2)%Z)
      [["CVE"; "CVE-2024-0001"]; ["Score"; "9.8"]] widths.
Proof.
  apply (sheet_widths_fit string (λ s, Z.of_nat (String.length s))
           [["CVE"; "CVE-2024-0001"]; ["Score"; "9.8"]]).
  repeat constructor; discriminate.
Defined.

(** ** The period, the request and the file name *)

Lemma years_checked : forallb year_checked (seqZ 1000 9000) = true.
Proof. by vm_compute. Qed.

Lemma in_seqZ (x m n : Z) : (m ≤ x < m + n)%Z → In x (seqZ m n).
Proof. intros H. apply list_elem_of_In. by apply elem_of_seqZ. Qed.

Lemma year_digits (y : Z) :
  (1000 ≤ y ≤ 9999)%Z →
  ∃ a b c d,
    pretty y = String a (String b (String c (String d EmptyString))) ∧
    (is_digit a && is_digit b && is_digit c && is_digit d)%bool = true ∧
    (1000 * digit_value a + 100 * digit_value b + 10 * digit_value c + digit_value d)%Z = y.
Proof.
  intros Hy. pose proof years_checked as H. rewrite forallb_forall in H.
  specialize (H y (in_seqZ y 1000 9000 ltac:(lia))). unfold year_checked in H.
  destruct (pretty y) as [|a [|b [|c [|d [|]]]]]; try discriminate.
  apply andb_true_iff in H as [Hd Hv]. apply Z.eqb_eq in Hv. by exists a, b, c, d.
Qed.

Lemma month_abbr_checked (m : Z) :
  (1 ≤ m ≤ 12)%Z →
  ∃ f g h,
    month_abbr m = String f (String g (String h EmptyString)) ∧
    (is_upper f && is_lower g && is_lower h)%bool = true ∧
    period_month (month_abbr m) = m.
Proof.
  intros Hm.
  assert (m = 1 ∨ m = 2 ∨ m = 3 ∨ m = 4 ∨ m = 5 ∨ m = 6 ∨
          m = 7 ∨ m = 8 ∨ m = 9 ∨ m = 10 ∨ m = 11 ∨ m = 12)%Z as Hcases by lia.
  repeat (destruct Hcases as [->|Hcases]); try subst m;
    do 3 eexists; (split; [reflexivity|]); split; reflexivity.
Qed.

Lemma period_checked_in_range now :
  (1000 ≤ dt_year now ≤ 9999)%Z → (1 ≤ dt_month now ≤ 12)%Z →
  period_shape (current_year_month now) = true ∧
  period_clock (current_year_month now) = now.
Proof.
  intros Hy Hm. destruct now as [y m]. simpl in Hy, Hm.
  destruct (year_digits y Hy) as (a & b & c & d & Hp & Hd & Hv).
  destruct (month_abbr_checked m Hm) as (f & g & h & Ha & Hs & Hpm).
  unfold current_year_month. cbn [dt_year dt_month]. rewrite Hp.
  rewrite !append_cons. change (String.append EmptyString ?x) with x.
  change ("-" +:+ month_abbr m) with (String "-" (month_abbr m)).
  split.
  - rewrite Ha. cbn [period_shape]. rewrite Hd. cbn. exact Hs.
  - cbn [period_clock]. change ("" +:+ month_abbr m) with (month_abbr m).
    by rewrite Hv, Hpm.
Qed.

Lemma append_inj_prefix (p a b : string) : p +:+ a = p +:+ b → a = b.
Proof.
  induction p as [|c p IH]; [done|]. rewrite !append_cons. intros [= H]. auto.
Qed.

Lemma length_append (a b : string) :
  String.length (a +:+ b) = (String.length a + String.length b)%nat.
Proof. induction a as [|c a IH]; [done|]. rewrite append_cons. simpl. by rewrite IH. Qed.

Lemma append_inj_suffix (a b s : string) : a +:+ s = b +:+ s → a = b.
Proof.
  revert b. induction a as [|c a IH]; intros [|c' b] H.
  - done.
  - apply (f_equal String.length) in H. rewrite !length_append in H. simpl in H. lia.
  - apply (f_equal String.length) in H. rewrite !length_append in H. simpl in H. lia.
  - rewrite !append_cons in H. injection H as -> H. f_equal. by apply IH.
Qed.

(** For every clock reading from the year 1000 to the year 9999 the
    period is eight characters of the shape [YYYY-Mmm]: the four digits
    of the year, a dash and the English month abbreviation. *)
Theorem current_year_month_shape (now : datetime) :
  (1000 ≤ dt_year now ≤ 9999)%Z →
  (1 ≤ dt_month now ≤ 12)%Z →
  period_shape (current_year_month now) = true ∧
  String.length (current_year_month now) = 8%nat ∧
  dt_year (period_clock (current_year_month now)) = dt_year now.
Proof.
  intros Hy Hm. destruct (period_checked_in_range now Hy Hm) as [Hs Hc].
  split; [done|]. split; [|by rewrite Hc].
  destruct (current_year_month now) as [|a [|b [|c [|d [|e [|f [|g [|h [|]]]]]]]]];
    try discriminate. done.
Qed.

Lemma current_year_month_shape_witness :
  period_shape (current_year_month {| dt_year := 2024; dt_month := 1 |}) = true ∧
  String.length (current_year_month {| dt_year := 2024; dt_month := 1 |}) = 8%nat ∧
  dt_year (period_clock (current_year_month {| dt_year := 2024; dt_month := 1 |})) = 2024.
Proof.
  apply (current_year_month_shape {| dt_year := 2024; dt_month := 1 |}); simpl; lia.
Defined.

(** Two clock readings give the same request URL, or the same report
    file name, only when they lie in the same month of the same year: a
    run never fetches, or overwrites, the report of another month. *)
Theorem period_identifies_month (now now' : datetime) :
  (1000 ≤ dt_year now ≤ 9999)%Z → (1 ≤ dt_month now ≤ 12)%Z →
  (1000 ≤ dt_year now' ≤ 9999)%Z → (1 ≤ dt_month now' ≤ 12)%Z →
  (request_url (current_year_month now) = request_url (current_year_month now') → now = now') ∧
  (report_file (current_year_month now) = report_file (current_year_month now') → now = now').
Proof.
  intros Hy Hm Hy' Hm'.
  destruct (period_checked_in_range now Hy Hm) as [_ Hc].
  destruct (period_checked_in_range now' Hy' Hm') as [_ Hc'].
  split; intros H.
  - apply append_inj_prefix in H. rewrite <- Hc, <- Hc'. by rewrite H.
  - unfold report_file in H. apply append_inj_prefix, append_inj_suffix in H.
    rewrite <- Hc, <- Hc'. by rewrite H.
Qed.

Lemma period_identifies_month_witness :
  (request_url (current_year_month {| dt_year := 2024; dt_month := 6 |})
   = request_url (current_year_month {| dt_year := 2024; dt_month := 7 |}) →
   {| dt_year := 2024; dt_month := 6 |} = {| dt_year := 2024; dt_month := 7 |}) ∧
  (report_file (current_year_month {| dt_year := 2024; dt_month := 6 |})
   = report_file (current_year_month {| dt_year := 2024; dt_month := 7 |}) →
   {| dt_year := 2024; dt_month := 6 |} = {| dt_year := 2024; dt_month := 7 |}).
Proof.
  apply (period_identifies_month {| dt_year := 2024; dt_month := 6 |}
           {| dt_year := 2024; dt_month := 7 |}); simpl; lia.
Defined.

Example period_of_january_2024 :
  current_year_month {| dt_year := 2024; dt_month := 1 |} = "2024-Jan" ∧
  request_url "2024-Jan" = "https://api.msrc.microsoft.com/cvrf/v3.0/cvrf/2024-Jan" ∧
  report_file "2024-Jan" = "MSRC_2024-Jan.xlsx".
Proof. repeat split; by vm_compute. Qed.

(** ** Score sets after the first *)

(** [next] is called once on the generator: the exploited-in-wild
    extractor and the high-severity filter read the first score set of a
    record and no other.  Whatever follows it -- higher scores, values
    that are no score sets at all -- changes neither result. *)
Theorem only_first_score_set_read (float_of_str : string → option float) (threshold : float)
    (vs1 vs2 : list json) (s0 : json) (rest rest' : list json)
    (fields : list (string * json)) :
  exploited_in_wild
    (JList (vs1 ++ JDict (("CVSSScoreSets", JList (s0 :: rest)) :: fields) :: vs2))
  = exploited_in_wild
      (JList (vs1 ++ JDict (("CVSSScoreSets", JList (s0 :: rest')) :: fields) :: vs2)) ∧
  high_severity float_of_str threshold
    (JList (vs1 ++ JDict (("CVSSScoreSets", JList (s0 :: rest)) :: fields) :: vs2))
  = high_severity float_of_str threshold
      (JList (vs1 ++ JDict (("CVSSScoreSets", JList (s0 :: rest')) :: fields) :: vs2)).
Proof.
  split.
  - rewrite !exploited_in_wild_list. apply foldM_replace. intros rows. reflexivity.
  - rewrite !high_severity_list. apply foldM_replace. intros rows. reflexivity.
Qed.

Example later_score_sets_unread :
  high_severity (λ _, None) default_threshold
    (JList [vuln "CVE-2024-0013" [JDict [("BaseScore", JFloat 5)]; JNull;
                                  JDict [("BaseScore", JFloat 10)]] []])
  = Ok [].
Proof. reflexivity. Qed.

(** ** The sheets against the Summary *)

Lemma classification_counts_bound vs out :
  classification_counts (JList vs) = Ok out →
  Forall (λ row, (0 ≤ row.2 ≤ Z.of_nat (length vs))%Z) out.
Proof.
  intros H. apply classification_counts_ok_iff in H as [_ ->].
  unfold tab. rewrite List.Forall_map. apply Forall_forall. intros l _. simpl.
  pose proof (List.filter_length_le (credited l) vs). lia.
Qed.

Section SheetsAgainstSummary.

Variable float_of_str : string → option float.
Variable lower : string → string.
Variable lib : excel_library.

(** In a workbook [main] has written, the Summary's Total Vulns bounds
    every other sheet: no classification count is above it or below 0,
    and none of the three row sheets has more rows than it. *)
Theorem sheets_bounded_by_total (ym : string) (resp : response) (file : string)
    (sheets : list sheet) :
  main float_of_str lower lib ym resp = Ok (file, sheets) →
  ∃ ttl total counts wild high likely,
    map content sheets
    = [ SummaryFrame ttl ym total; CountsFrame counts; RowsFrame wild;
        RowsFrame high; RowsFrame likely ] ∧
    Forall (λ row, (0 ≤ row.2 ≤ total)%Z) counts ∧
    (Z.of_nat (length wild) ≤ total)%Z ∧
    (Z.of_nat (length high) ≤ total)%Z ∧
    (Z.of_nat (length likely) ≤ total)%Z.
Proof.
  intros H. apply main_ok_spec in H
    as (stats & total & counts & wild & high & likely &
        _ & Ha0 & Ha1 & Ha2 & Ha3 & Ha4 & _ & -> & _).
  exists (title stats), total, counts, wild, high, likely. split; [done|].
  destruct (vulns stats) as [| | | |s|vs|kvs]; try discriminate.
  - destruct s as [|c s]; [|discriminate].
    inversion Ha0; inversion Ha1; inversion Ha2; inversion Ha3; inversion Ha4; subst.
    split; [|done]. repeat constructor; done.
  - inversion Ha0; subst. split; [by apply classification_counts_bound|].
    apply exploited_in_wild_rows_sound_len in Ha2.
    apply high_severity_rows_sound_aux in Ha3 as (k3 & Hs3 & Hf3).
    apply likely_exploited_rows_sound_len in Ha4.
    pose proof (sublist_rows_length _ _ _ _ Hs3 Hf3). lia.
  - destruct kvs as [|[k y] kvs]; [|discriminate].
    inversion Ha0; inversion Ha1; inversion Ha2; inversion Ha3; inversion Ha4; subst.
    split; [|done]. repeat constructor; done.
Qed.

End SheetsAgainstSummary.

(** The report on [titled_bulletin]: four records, one credited with
    Spoofing, and one row in each of the three row sheets. *)
Lemma sheets_bounded_by_total_witness :
  ∃ ttl total counts wild high likely,
    map content titled_bulletin_sheets
    = [ SummaryFrame ttl "2024-Jan" total; CountsFrame counts; RowsFrame wild;
        RowsFrame high; RowsFrame likely ] ∧
    Forall (λ row, (0 ≤ row.2 ≤ total)%Z) counts ∧
    (Z.of_nat (length wild) ≤ total)%Z ∧
    (Z.of_nat (length high) ≤ total)%Z ∧
    (Z.of_nat (length likely) ≤ total)%Z.
Proof.
  apply (sheets_bounded_by_total (λ _, None) ascii_lower refusing_control_characters
           "2024-Jan" (ok_response (JDict titled_bulletin)) "MSRC_2024-Jan.xlsx").
  reflexivity.
Defined.
